(** * gmetric.py: Ganglia metric encoder and sender

    A shallow embedding of [gmetric.py].  The module builds a metric
    descriptor (class [Gmetric]), validates every attribute assignment in
    [__setattr__], renders the descriptor into two XDR buffers
    ([get_metabuf], [get_valuebuf]) and sends both over UDP (class
    [Sender]).

    Python is dynamically typed and the validation code is mostly about
    types, so attribute values are drawn from a universe [value] of the
    Python objects that the module manipulates.  An instance of [Gmetric]
    is its attribute dictionary, a [gmap string value].  Exceptions are
    explicit: pure helpers return a [result], methods that mutate an
    object or the network run in a state-and-exception monad.

    Out of scope: the two [threading.RLock]s (one thread is modelled, so
    acquiring and releasing is a no-op), [logging.debug], floats, [bytes]
    objects as attribute values, and the command line under
    [if __name__ == '__main__'] apart from its splitting of the group
    list. *)

From Stdlib Require Import ZArith List String Ascii Bool Lia.
From stdpp Require Import base option gmap strings list.

Local Open Scope Z_scope.

(** ** Exceptions and results *)

Inductive exn :=
| ValueError (msg : string)  (* raised by the module itself *)
| TypeError                  (* a builtin applied to the wrong type *)
| AttributeError             (* a missing attribute or method *)
| ConversionError            (* xdrlib: struct.error while packing *)
| UnicodeEncodeError         (* str.encode() on a lone surrogate *)
| OSError.                   (* socket.error, socket.gaierror *)

Inductive result (A : Type) :=
| Ok (a : A)
| Raise (e : exn).
Arguments Ok {A} a.
Arguments Raise {A} e.

Definition rbind {A B} (c : result A) (k : A -> result B) : result B :=
  match c with
  | Ok a => k a
  | Raise e => Raise e
  end.

Declare Scope result_scope.
Delimit Scope result_scope with result.
Notation "x <- c ; k" := (rbind c (fun x => k))
  (at level 20, c at level 100, k at level 200) : result_scope.
Notation "' p <- c ; k" := (rbind c (fun x => let 'p := x in k))
  (at level 20, p pattern, c at level 100, k at level 200) : result_scope.

(** State-and-exception monad: a statement runs on a state [S], returns
    normally or raises, and leaves a state behind in both cases (an
    exception does not undo the mutations made before it). *)
Definition M (S A : Type) : Type := S -> result A * S.

Definition mret {S A} (a : A) : M S A := fun s => (Ok a, s).
Definition mraise {S A} (e : exn) : M S A := fun s => (Raise e, s).
Definition mbind {S A B} (c : M S A) (k : A -> M S B) : M S B :=
  fun s => match c s with
           | (Ok a, s') => k a s'
           | (Raise e, s') => (Raise e, s')
           end.
Definition mlift {S A} (r : result A) : M S A := fun s => (r, s).
Definition mget {S} : M S S := fun s => (Ok s, s).
Definition mmodify {S} (f : S -> S) : M S unit := fun s => (Ok tt, f s).

(** [try: body finally: handler]: the handler runs on both exits; the
    outcome of the body is kept unless the handler itself raises. *)
Definition mfinally {S A} (body : M S A) (handler : M S unit) : M S A :=
  fun s => match body s with
           | (r, s') => match handler s' with
                        | (Ok _, s'') => (r, s'')
                        | (Raise e, s'') => (Raise e, s'')
                        end
           end.

Declare Scope state_scope.
Delimit Scope state_scope with state.
Notation "x <~ c ; k" := (mbind c (fun x => k))
  (at level 20, c at level 100, k at level 200) : state_scope.

(** ** Python values *)

(** A [str] is a sequence of Unicode code points, a [bytes] object a
    sequence of octets. *)
Abbreviation str := (list Z).
Abbreviation bytes := (list Z).

(** The code points (or octets) of an ASCII literal. *)
Definition lit (x : string) : list Z :=
  (fun a => Z.of_N (N_of_ascii a)) <$> list_ascii_of_string x.

Inductive TypeEnum :=
| STRING | INT8 | UINT8 | INT16 | UINT16 | INT32 | UINT32 | FLOAT | DOUBLE.

Inductive SlopeEnum :=
| ZERO | POSITIVE | NEGATIVE | BOTH | UNSPECIFIED | DERIVATIVE.

(** [TypeEnum.X.value] *)
Definition TypeEnum_value (t : TypeEnum) : str :=
  match t with
  | STRING => lit "string"
  | INT8 => lit "int8"
  | UINT8 => lit "uint8"
  | INT16 => lit "int16"
  | UINT16 => lit "uint16"
  | INT32 => lit "int32"
  | UINT32 => lit "uint32"
  | FLOAT => lit "float"
  | DOUBLE => lit "double"
  end.

(** [SlopeEnum.X.value]; [SlopeEnum] is an [IntEnum], so a member is
    also this integer. *)
Definition SlopeEnum_value (s : SlopeEnum) : Z :=
  match s with
  | ZERO => 0
  | POSITIVE => 1
  | NEGATIVE => 2
  | BOTH => 3
  | UNSPECIFIED => 4
  | DERIVATIVE => 5
  end.

#[warnings="-register-all"]
Inductive value :=
| VNone
| VBool (b : bool)
| VInt (z : Z)
| VStr (s : str)
| VList (l : list value)
| VTuple (l : list value)
| VType (t : TypeEnum)
| VSlope (s : SlopeEnum).

(** The interpreter and the host: what the module obtains from builtins
    and from the [socket] module without owning it.  [int_of_str] is
    [int(s)] on a [str] ([None] when the literal is invalid), [str_of]
    is [str(v)] on an object that is not already a [str],
    [gethostbyname] resolves to an IPv4 address held as a 32-bit number
    ([None] when resolution fails). *)
Record env := {
  gethostname : str;
  gethostbyname : str -> option Z;
  int_of_str : str -> option Z;
  str_of : value -> str
}.

(** ** Builtins *)
Module Py.

(** Truth value testing, [bool(v)].  A plain [Enum] member is always
    true, an [IntEnum] member is true when its integer is not zero. *)
Definition truthy (v : value) : bool :=
  match v with
  | VNone => false
  | VBool b => b
  | VInt z => negb (z =? 0)
  | VStr s => negb (Nat.eqb (length s) 0)
  | VList l => negb (Nat.eqb (length l) 0)
  | VTuple l => negb (Nat.eqb (length l) 0)
  | VType _ => true
  | VSlope s => negb (SlopeEnum_value s =? 0)
  end.

(** [a and b], with [b] evaluated only when [a] is true. *)
Definition and_ (a : value) (b : result value) : result value :=
  if truthy a then b else Ok a.

Definition is_str (v : value) : bool :=
  match v with VStr _ => true | _ => false end.
Definition is_bool (v : value) : bool :=
  match v with VBool _ => true | _ => false end.
Definition is_list (v : value) : bool :=
  match v with VList _ => true | _ => false end.
Definition is_tuple (v : value) : bool :=
  match v with VTuple _ => true | _ => false end.

(** [x == c] for a one-character string [c]. *)
Definition eq_char (c : Z) (x : value) : bool :=
  match x with
  | VStr [c'] => c' =? c
  | _ => false
  end.

(** [c in v] for a one-character string [c]: substring test on a [str],
    membership by [==] on a list or tuple, [TypeError] on anything that
    is not a container. *)
Definition contains (c : Z) (v : value) : result bool :=
  match v with
  | VStr s => Ok (existsb (Z.eqb c) s)
  | VList l => Ok (existsb (eq_char c) l)
  | VTuple l => Ok (existsb (eq_char c) l)
  | _ => Raise TypeError
  end.

(** [len(v)] *)
Definition len (v : value) : result Z :=
  match v with
  | VStr s => Ok (Z.of_nat (length s))
  | VList l => Ok (Z.of_nat (length l))
  | VTuple l => Ok (Z.of_nat (length l))
  | _ => Raise TypeError
  end.

(** [int(v)] *)
Definition int (E : env) (v : value) : result Z :=
  match v with
  | VInt z => Ok z
  | VBool b => Ok (Z.b2z b)
  | VSlope s => Ok (SlopeEnum_value s)
  | VStr s => match int_of_str E s with
              | Some z => Ok z
              | None => Raise (ValueError "invalid literal for int()")
              end
  | _ => Raise TypeError
  end.

(** [str(v)] *)
Definition to_str (E : env) (v : value) : str :=
  match v with
  | VStr s => s
  | _ => str_of E v
  end.

(** [v.value] *)
Definition dot_value (v : value) : result value :=
  match v with
  | VType t => Ok (VStr (TypeEnum_value t))
  | VSlope s => Ok (VInt (SlopeEnum_value s))
  | _ => Raise AttributeError
  end.

(** [v in TypeEnum] and [v in SlopeEnum] ([EnumMeta.__contains__] of
    Python 3.8 to 3.11: [TypeError] on an object that is not an [Enum]
    member). *)
Definition in_TypeEnum (v : value) : result bool :=
  match v with
  | VType _ => Ok true
  | VSlope _ => Ok false
  | _ => Raise TypeError
  end.
Definition in_SlopeEnum (v : value) : result bool :=
  match v with
  | VSlope _ => Ok true
  | VType _ => Ok false
  | _ => Raise TypeError
  end.

(** UTF-8 of one code point; surrogates cannot be encoded. *)
Definition utf8_char (c : Z) : result bytes :=
  if c <? 0x80 then Ok [c]
  else if c <? 0x800 then
    Ok [Z.lor 0xC0 (Z.shiftr c 6); Z.lor 0x80 (Z.land c 0x3F)]
  else if c <? 0x10000 then
    if (0xD800 <=? c) && (c <=? 0xDFFF) then Raise UnicodeEncodeError
    else Ok [Z.lor 0xE0 (Z.shiftr c 12);
             Z.lor 0x80 (Z.land (Z.shiftr c 6) 0x3F);
             Z.lor 0x80 (Z.land c 0x3F)]
  else
    Ok [Z.lor 0xF0 (Z.shiftr c 18);
        Z.lor 0x80 (Z.land (Z.shiftr c 12) 0x3F);
        Z.lor 0x80 (Z.land (Z.shiftr c 6) 0x3F);
        Z.lor 0x80 (Z.land c 0x3F)].

Fixpoint utf8 (s : str) : result bytes :=
  match s with
  | [] => Ok []
  | c :: s' =>
      (b <- utf8_char c ;
       bs <- utf8 s' ;
       Ok (b ++ bs))%result
  end.

(** [v.encode()] *)
Definition encode (v : value) : result bytes :=
  match v with
  | VStr s => utf8 s
  | _ => Raise AttributeError
  end.

(** [s.split(sep, 1)] on a [str] known to contain [sep]: the parts
    before and after the first occurrence. *)
Fixpoint split_first (sep : Z) (s : str) : str * str :=
  match s with
  | [] => ([], [])
  | c :: s' =>
      if c =? sep then ([], s')
      else let '(a, b) := split_first sep s' in (c :: a, b)
  end.

(** [(a, b) = v.split(sep, 1)] *)
Definition split1 (sep : Z) (v : value) : result (str * str) :=
  match v with
  | VStr s => Ok (split_first sep s)
  | _ => Raise AttributeError
  end.

(** [name.startswith(p)] *)
Definition startswith (p name : string) : bool := String.prefix p name.

(** [name.replace(old, '', 1)]: the first occurrence of [old] removed. *)
Fixpoint remove_first (old name : string) : string :=
  if String.prefix old name
  then String.substring (String.length old)
                        (String.length name - String.length old)%nat name
  else match name with
       | EmptyString => EmptyString
       | String a rest => String a (remove_first old rest)
       end.

End Py.

(** ** xdrlib.Packer

    The packer of Python's standard library: a growing buffer to which
    each method appends.  [pack_uint] and [pack_int] go through
    [struct.pack('>L', x)] and [struct.pack('>l', x)]; a [struct.error]
    (argument not an integer, or out of range) is turned into
    [xdrlib.ConversionError]. *)
Module xdrlib.

Definition Packer : bytes := [].

(** Four octets, most significant first. *)
Definition be32 (z : Z) : bytes :=
  [Z.land (Z.shiftr z 24) 255; Z.land (Z.shiftr z 16) 255;
   Z.land (Z.shiftr z 8) 255; Z.land z 255].

(** The integer that [struct.pack] sees: [int], [bool] and [IntEnum]
    members qualify. *)
Definition index (x : value) : option Z :=
  match x with
  | VInt z => Some z
  | VBool b => Some (Z.b2z b)
  | VSlope s => Some (SlopeEnum_value s)
  | _ => None
  end.

Definition pack_uint (x : value) (buf : bytes) : result bytes :=
  match index x with
  | Some z =>
      if (0 <=? z) && (z <? 2 ^ 32) then Ok (buf ++ be32 z)
      else Raise ConversionError
  | None => Raise ConversionError
  end.

Definition pack_int (x : value) (buf : bytes) : result bytes :=
  match index x with
  | Some z =>
      if (- 2 ^ 31 <=? z) && (z <? 2 ^ 31) then Ok (buf ++ be32 (z mod 2 ^ 32))
      else Raise ConversionError
  | None => Raise ConversionError
  end.

Definition pack_bool (x : value) (buf : bytes) : result bytes :=
  if Py.truthy x then Ok (buf ++ [0; 0; 0; 1]) else Ok (buf ++ [0; 0; 0; 0]).

(** [data = s[:n]], then zero padding up to the next multiple of four. *)
Definition pack_fstring (n : Z) (s : bytes) (buf : bytes) : result bytes :=
  if n <? 0 then Raise (ValueError "fstring size must be nonnegative")
  else
    let data := take (Z.to_nat n) s in
    let n := (n + 3) / 4 * 4 in
    Ok (buf ++ data ++ repeat 0 (Z.to_nat (n - Z.of_nat (length data)))).

Definition pack_string (s : bytes) (buf : bytes) : result bytes :=
  let n := Z.of_nat (length s) in
  (buf <- pack_uint (VInt n) buf ;
   pack_fstring n s buf)%result.

Definition get_buffer (buf : bytes) : bytes := buf.

End xdrlib.

(** ** class Gmetric *)
Module Gmetric.

(** An instance is its attribute dictionary; the private attribute
    [self.__myhost] is stored under its mangled name. *)
Abbreviation obj := (gmap string value).

Definition myhost_attr : string := "_Gmetric__myhost".


(** [self.name] *)
Definition getattr (name : string) (self : obj) : result value :=
  match self !! name with
  | Some v => Ok v
  | None => Raise AttributeError
  end.

(** [for x in v]: the items that the loop visits. *)
Definition iter (v : value) : result (list value) :=
  match v with
  | VList l => Ok l
  | VTuple l => Ok l
  | VStr s => Ok ((fun c => VStr [c]) <$> s)
  | _ => Raise TypeError
  end.

Definition is_none (v : value) : bool :=
  match v with VNone => true | _ => false end.

(** The code points of the double quote and of the colon. *)
Definition quot : Z := 34.
Definition colon : Z := 58.

(** [return value and quot in value] *)
Definition __check_containing_quot__ (val : value) : result value :=
  Py.and_ val (b <- Py.contains quot val ; Ok (VBool b))%result.

(** The function returns [False] on a malformed value and falls off its
    end, returning [None], on a well-formed one. *)
Definition __validate_spoof_host__ (val : value) : result value :=
  (c <- Py.contains colon val ;
   if negb c then Ok (VBool false)
   else
     ' (spoofip, spoofhost) <- Py.split1 colon val ;
     if Nat.eqb (length spoofip) 0 || Nat.eqb (length spoofhost) 0
     then Ok (VBool false)
     else Ok VNone)%result.

Definition __check_gv_var__ (E : env) (gvname : string) (val : value)
  : result unit :=
  (if String.eqb gvname "name" || String.eqb gvname "value"
      || String.eqb gvname "units" then
     if negb (Py.is_str val) then Raise (ValueError "")
     else
       q <- __check_containing_quot__ val ;
       if Py.truthy q then Raise (ValueError "") else Ok tt
   else if String.eqb gvname "type" then
     b <- Py.in_TypeEnum val ;
     if negb b then Raise (ValueError "") else Ok tt
   else if String.eqb gvname "slope" then
     b <- Py.in_SlopeEnum val ;
     if negb b then Raise (ValueError "") else Ok tt
   else if String.eqb gvname "tmax" || String.eqb gvname "dmax" then
     n <- Py.int E val ;
     if n <? 0 then Raise (ValueError "") else Ok tt
   else Ok tt)%result.

(** The loop [for grpval in value] of [__check_gm_var__]. *)
Fixpoint check_group_items (items : list value) : result unit :=
  match items with
  | [] => Ok tt
  | grpval :: rest =>
      (q <- __check_containing_quot__ grpval ;
       if Py.truthy q then Raise (ValueError "")
       else check_group_items rest)%result
  end.

Definition __check_gm_var__ (gmname : string) (val : value) : result unit :=
  (if String.eqb gmname "cluster" || String.eqb gmname "desc"
      || String.eqb gmname "title" then
     if negb (is_none val) && negb (Py.is_str val)
     then Raise (ValueError "")
     else
       q <- Py.and_ val (__check_containing_quot__ val) ;
       if Py.truthy q then Raise (ValueError "") else Ok tt
   else if String.eqb gmname "group" then
     if negb (is_none val) then
       if negb (Py.is_list val || Py.is_tuple val)
       then Raise (ValueError "")
       else
         items <- iter val ;
         check_group_items items
     else Ok tt
   else if String.eqb gmname "spoof_host" then
     q <- Py.and_ val (__validate_spoof_host__ val) ;
     if Py.truthy q then Raise (ValueError "") else Ok tt
   else if String.eqb gmname "spoof_heartbeat" then
     if negb (Py.is_bool val) then Raise (ValueError "") else Ok tt
   else Ok tt)%result.

(** [super(Gmetric, self).__setattr__(name, value)], the setter of
    [object].  Three names are not entries of the instance dictionary:
    [__class__] takes a class and [__dict__] a dictionary, neither of
    which is a value of the universe modelled here, so the assignment is
    refused with [TypeError]; [__weakref__] is read-only.  Every other
    name is stored in the dictionary. *)
Definition object_setattr (name : string) (val : value) : M obj unit :=
  if String.eqb name "__class__" || String.eqb name "__dict__"
  then mraise TypeError
  else if String.eqb name "__weakref__" then mraise AttributeError
  else mmodify (insert name val).

(** The check runs first; the attribute is stored only when the check
    returns. *)
Definition __setattr__ (E : env) (name : string) (val : value)
  : M obj unit :=
  (_ <~ (if Py.startswith "gv_" name then
           mlift (__check_gv_var__ E (Py.remove_first "gv_" name) val)
         else if Py.startswith "gm_" name then
           mlift (__check_gm_var__ (Py.remove_first "gm_" name) val)
         else mret tt) ;
   object_setattr name val)%state.

Definition __init__ (E : env) : M obj unit :=
  (_ <~ __setattr__ E myhost_attr (VStr (gethostname E)) ;
   _ <~ __setattr__ E "gv_name" (VStr []) ;
   _ <~ __setattr__ E "gv_value" (VStr []) ;
   _ <~ __setattr__ E "gv_type" (VType STRING) ;
   _ <~ __setattr__ E "gv_units" (VStr []) ;
   _ <~ __setattr__ E "gv_slope" (VSlope BOTH) ;
   _ <~ __setattr__ E "gv_tmax" (VInt 60) ;
   _ <~ __setattr__ E "gv_dmax" (VInt 0) ;
   _ <~ __setattr__ E "gm_cluster" VNone ;
   _ <~ __setattr__ E "gm_group" VNone ;
   _ <~ __setattr__ E "gm_desc" VNone ;
   _ <~ __setattr__ E "gm_title" VNone ;
   _ <~ __setattr__ E "gm_spoof_host" VNone ;
   __setattr__ E "gm_spoof_heartbeat" (VBool false))%state.

(** [Gmetric()]: [__init__] run on a fresh instance. *)
Definition new (E : env) : result unit * obj := __init__ E ∅.

Definition set_heartbeat (E : env) : M obj unit :=
  (_ <~ __setattr__ E "gv_name" (VStr (lit "heartbeat")) ;
   _ <~ __setattr__ E "gv_type" (VType UINT32) ;
   _ <~ __setattr__ E "gv_value" (VStr (lit "0")) ;
   _ <~ __setattr__ E "gv_units" (VStr []) ;
   _ <~ __setattr__ E "gv_slope" (VSlope ZERO) ;
   _ <~ __setattr__ E "gv_tmax" (VInt 0) ;
   _ <~ __setattr__ E "gv_dmax" (VInt 0) ;
   __setattr__ E "gm_spoof_heartbeat" (VBool true))%state.

(** [pack.pack_string(b'heartbeat')] or
    [pack.pack_string(self.gv_name.encode())] *)
Definition pack_name (self : obj) (pack : bytes) : result bytes :=
  (hb <- getattr "gm_spoof_heartbeat" self ;
   if Py.truthy hb then xdrlib.pack_string (lit "heartbeat") pack
   else
     name <- getattr "gv_name" self ;
     b <- Py.encode name ;
     xdrlib.pack_string b pack)%result.

(** [pack.pack_bool(self.gm_spoof_host and len(self.gm_spoof_host) > 0)] *)
Definition pack_spoofed (self : obj) (pack : bytes) : result bytes :=
  (sh <- getattr "gm_spoof_host" self ;
   flag <- Py.and_ sh (sh' <- getattr "gm_spoof_host" self ;
                       n <- Py.len sh' ;
                       Ok (VBool (0 <? n))) ;
   xdrlib.pack_bool flag pack)%result.

Definition __get_meta_value_buf__ (self : obj) (pack : bytes) : result bytes :=
  (pack <- pack_name self pack ;
   pack <- pack_spoofed self pack ;
   ty <- getattr "gv_type" self ;
   tyv <- Py.dot_value ty ;
   b <- Py.encode tyv ;
   pack <- xdrlib.pack_string b pack ;
   pack <- pack_name self pack ;
   units <- getattr "gv_units" self ;
   b <- Py.encode units ;
   pack <- xdrlib.pack_string b pack ;
   slope <- getattr "gv_slope" self ;
   slopev <- Py.dot_value slope ;
   pack <- xdrlib.pack_uint slopev pack ;
   tmax <- getattr "gv_tmax" self ;
   pack <- xdrlib.pack_uint tmax pack ;
   dmax <- getattr "gv_dmax" self ;
   xdrlib.pack_uint dmax pack)%result.

(** [if self.X: pack.pack_string(key); pack.pack_string(self.X.encode())] *)
Definition pack_if_set (key : string) (attr : string) (self : obj)
    (pack : bytes) : result bytes :=
  (x <- getattr attr self ;
   if Py.truthy x then
     pack <- xdrlib.pack_string (lit key) pack ;
     x' <- getattr attr self ;
     b <- Py.encode x' ;
     xdrlib.pack_string b pack
   else Ok pack)%result.

(** The loop [for gmgelement in self.gm_group]. *)
Fixpoint pack_group_items (items : list value) (pack : bytes)
  : result bytes :=
  match items with
  | [] => Ok pack
  | gmgelement :: rest =>
      (pack <- xdrlib.pack_string (lit "GROUP") pack ;
       b <- Py.encode gmgelement ;
       pack <- xdrlib.pack_string b pack ;
       pack_group_items rest pack)%result
  end.

(** [if self.gm_group: for gmgelement in self.gm_group: ...] *)
Definition pack_group (self : obj) (pack : bytes) : result bytes :=
  (group <- getattr "gm_group" self ;
   if Py.truthy group then
     group' <- getattr "gm_group" self ;
     items <- iter group' ;
     pack_group_items items pack
   else Ok pack)%result.

(** The count [mlen]: the loop over the four scalar fields tests
    [is not None]; the group and the heartbeat flag are tested for
    truth. *)
Definition count_mlen (self : obj) : result Z :=
  (cluster <- getattr "gm_cluster" self ;
   desc <- getattr "gm_desc" self ;
   title <- getattr "gm_title" self ;
   spoof_host <- getattr "gm_spoof_host" self ;
   let mlen :=
     fold_left (fun mlen gmelement =>
                  if negb (is_none gmelement) then mlen + 1 else mlen)
               [cluster; desc; title; spoof_host] 0 in
   group <- getattr "gm_group" self ;
   mlen <- (if Py.truthy group then
              group' <- getattr "gm_group" self ;
              n <- Py.len group' ;
              Ok (mlen + n)
            else Ok mlen) ;
   hb <- getattr "gm_spoof_heartbeat" self ;
   Ok (if Py.truthy hb then mlen + 1 else mlen))%result.

Definition __get_meta_meta_buf__ (self : obj) (pack : bytes) : result bytes :=
  (mlen <- count_mlen self ;
   pack <- xdrlib.pack_uint (VInt mlen) pack ;
   pack <- pack_if_set "CLUSTER" "gm_cluster" self pack ;
   pack <- pack_if_set "DESC" "gm_desc" self pack ;
   pack <- pack_if_set "TITLE" "gm_title" self pack ;
   pack <- pack_group self pack ;
   pack <- pack_if_set "SPOOF_HOST" "gm_spoof_host" self pack ;
   hb <- getattr "gm_spoof_heartbeat" self ;
   if Py.truthy hb then
     pack <- xdrlib.pack_string (lit "SPOOF_HEARTBEAT") pack ;
     xdrlib.pack_string (lit "yes") pack
   else Ok pack)%result.

(** [targethost = self.__myhost; if self.gm_spoof_host: targethost =
    self.gm_spoof_host; pack.pack_string(targethost.encode())] *)
Definition pack_targethost (self : obj) (pack : bytes) : result bytes :=
  (targethost <- getattr myhost_attr self ;
   sh <- getattr "gm_spoof_host" self ;
   targethost <- (if Py.truthy sh then getattr "gm_spoof_host" self
                  else Ok targethost) ;
   b <- Py.encode targethost ;
   xdrlib.pack_string b pack)%result.

(** Both [get_metabuf] and [get_valuebuf] pack between
    [self.__mylock.acquire()] and the [release()] of their [finally]
    clause; see [mylock_attr]. *)
Definition get_metabuf (self : obj) : result bytes :=
  (mpack <- xdrlib.pack_int (VInt 128) xdrlib.Packer ;
   mpack <- pack_targethost self mpack ;
   mpack <- __get_meta_value_buf__ self mpack ;
   mpack <- __get_meta_meta_buf__ self mpack ;
   Ok (xdrlib.get_buffer mpack))%result.

Definition get_valuebuf (E : env) (self : obj) : result bytes :=
  (pack <- xdrlib.pack_int (VInt (128 + 5)) xdrlib.Packer ;
   pack <- pack_targethost self pack ;
   pack <- pack_name self pack ;
   pack <- pack_spoofed self pack ;
   pack <- xdrlib.pack_string (lit "%s") pack ;
   v <- getattr "gv_value" self ;
   b <- Py.encode (VStr (Py.to_str E v)) ;
   xdrlib.pack_string b pack)%result.

End Gmetric.

(** ** class Sender *)
Module Sender.

(** What the process does to the network, in order.  A socket is named
    by a handle. *)
Inductive event :=
| Socket (fd : nat)                                  (* socket.socket(AF_INET, SOCK_DGRAM) *)
| Setsockopt (fd : nat) (ttl : Z)                    (* IP_MULTICAST_TTL *)
| Sendto (fd : nat) (data : bytes) (addr : Z * Z)    (* one datagram *)
| Close (fd : nat).

(** The operating system: the calls that succeeded so far, and a script
    saying which of the coming calls fail ([true]: the call raises
    [OSError] and does nothing; an exhausted script means success). *)
Record world := {
  trace : list event;
  faults : list bool
}.

Definition syscall (ev : event) : M world unit :=
  fun w =>
    match faults w with
    | true :: rest => (Raise OSError, {| trace := trace w; faults := rest |})
    | false :: rest => (Ok tt, {| trace := trace w ++ [ev]; faults := rest |})
    | [] => (Ok tt, {| trace := trace w ++ [ev]; faults := [] |})
    end.

(** The datagrams that left the host, oldest first. *)
Definition datagrams (w : world) : list (bytes * (Z * Z)) :=
  omap (fun ev => match ev with
                  | Sendto _ data addr => Some (data, addr)
                  | _ => None
                  end) (trace w).

(** The instance: [__dstaddr], [__ttl], [__mysocket]. *)
Record t := {
  dstaddr : Z * Z;
  ttl : Z;
  mysocket : option nat
}.

Definition set_mysocket (s : option nat) (self : t) : t :=
  {| dstaddr := dstaddr self; ttl := ttl self; mysocket := s |}.

(** [ipaddress.ip_address(a).is_multicast]: 224.0.0.0/4. *)
Definition is_multicast (a : Z) : bool := Z.shiftr a 28 =? 0xE.

(** Methods run on the instance and the world together. *)
Definition os {A} (c : M world A) : M (t * world) A :=
  fun '(self, w) => let '(r, w') := c w in (r, (self, w')).
Definition self_get : M (t * world) t :=
  fun '(self, w) => (Ok self, (self, w)).
Definition self_set (f : t -> t) : M (t * world) unit :=
  fun '(self, w) => (Ok tt, (f self, w)).

(** The constructor returns the new instance; it only needs the
    resolver. *)
Definition __init__ (E : env) (dsthost : str) (dstport : Z) (ttl : Z)
  : M world t :=
  if (dstport <=? 0) || (dstport >=? 65536) then mraise (ValueError "")
  else
    match gethostbyname E dsthost with
    | Some a => mret {| dstaddr := (a, dstport); ttl := ttl; mysocket := None |}
    | None => mraise OSError
    end.

(** [sock.setsockopt(IPPROTO_IP, IP_MULTICAST_TTL, ttl)]: the option
    value is converted to a C [int] first, and an integer that does not
    fit is refused with [TypeError] before the system is called. *)
Definition setsockopt (fd : nat) (ttl : Z) : M (t * world) unit :=
  if (ttl <? - 2 ^ 31) || (2 ^ 31 <=? ttl) then mraise TypeError
  else os (syscall (Setsockopt fd ttl)).

Definition create_socket : M (t * world) unit :=
  (w <~ os mget ;
   let fd := length (trace w) in
   _ <~ os (syscall (Socket fd)) ;
   _ <~ self_set (set_mysocket (Some fd)) ;
   self <~ self_get ;
   if is_multicast (fst (dstaddr self))
   then setsockopt fd (ttl self)
   else mret tt)%state.

(** [self.__mysocket.sendto(buf, self.__dstaddr)] *)
Definition sendto (buf : bytes) : M (t * world) unit :=
  (self <~ self_get ;
   match mysocket self with
   | Some fd => os (syscall (Sendto fd buf (dstaddr self)))
   | None => mraise AttributeError
   end)%state.

(** The argument of [send]: an instance of [Gmetric] or something
    else. *)
Inductive object :=
| Instance (g : Gmetric.obj)
| Other (v : value).

Definition send (E : env) (metric : object) : M (t * world) unit :=
  match metric with
  | Other _ => mraise (ValueError "")
  | Instance metric =>
      (hb <~ mlift (Gmetric.getattr "gm_spoof_heartbeat" metric) ;
       c <~ mlift (Py.and_ hb
                     (sh <- Gmetric.getattr "gm_spoof_host" metric ;
                      Ok (VBool (negb (Py.truthy sh))))%result) ;
       if Py.truthy c
       then mraise (ValueError "spoof-heatbeat needs spoof-host")
       else
         mbuf <~ mlift (Gmetric.get_metabuf metric) ;
         vbuf <~ mlift (Gmetric.get_valuebuf E metric) ;
         self <~ self_get ;
         _ <~ (if negb (bool_decide (is_Some (mysocket self)))
               then create_socket else mret tt) ;
         _ <~ sendto mbuf ;
         sendto vbuf)%state
  end.

Definition close_socket : M (t * world) unit :=
  mfinally
    (self <~ self_get ;
     match mysocket self with
     | Some fd => os (syscall (Close fd))
     | None => mret tt
     end)%state
    (self_set (set_mysocket None)).

(** [try: body except socket.error: pass] *)
Definition except_socket_error {S} (body : M S unit) : M S unit :=
  fun s => match body s with
           | (Raise OSError, s') => (Ok tt, s')
           | outcome => outcome
           end.

(** What the finalizer finds.  A constructor that returned leaves the
    three attributes; a constructor that raised (lines 308 to 310) leaves
    an instance without any attribute, and [close_socket] run on that one
    stores [None] under [__mysocket] on its way out. *)
Inductive instance :=
| Built (self : t)
| Unbuilt
| Socketless.

(** [self.__mysocket] read on an instance. *)
Definition read_mysocket (i : instance) : result (option nat) :=
  match i with
  | Built self => Ok (mysocket self)
  | Unbuilt => Raise AttributeError
  | Socketless => Ok None
  end.

(** [self.__mysocket = None] on an instance. *)
Definition clear_mysocket (i : instance) : instance :=
  match i with
  | Built self => Built (set_mysocket None self)
  | Unbuilt => Socketless
  | Socketless => Socketless
  end.

(** [close_socket] on whatever the finalizer finds. *)
Definition close_socket_on : M (instance * world) unit :=
  mfinally
    (s <~ (fun '(i, w) => (read_mysocket i, (i, w))) ;
     match s with
     | Some fd => fun '(i, w) =>
                    let '(r, w') := syscall (Close fd) w in (r, (i, w'))
     | None => mret tt
     end)%state
    (fun '(i, w) => (Ok tt, (clear_mysocket i, w))).

(** Only the socket error is caught. *)
Definition __del__ : M (instance * world) unit :=
  except_socket_error close_socket_on.

(** The instance that the call [Sender(dsthost, dstport, ttl)] leaves to
    the finalizer, whether [__init__] returned or raised. *)
Definition allocated (E : env) (dsthost : str) (dstport : Z) (ttl : Z)
    (w : world) : instance :=
  match fst (__init__ E dsthost dstport ttl w) with
  | Ok self => Built self
  | Raise _ => Unbuilt
  end.

End Sender.

(** ** The descriptor of the data model

    The typed view of an instance: every field holds a value of the type
    that the class documents.  [represents] relates it to the attribute
    dictionary that the methods read. *)
Record descriptor := {
  d_name : str;
  d_value : str;
  d_type : TypeEnum;
  d_units : str;
  d_slope : SlopeEnum;
  d_tmax : Z;
  d_dmax : Z;
  d_cluster : option str;
  d_desc : option str;
  d_title : option str;
  d_group : option (list str);
  d_spoof_host : option str;
  d_spoof_heartbeat : bool
}.

(** An optional string as an attribute value. *)
Definition opt_str (o : option str) : value :=
  match o with
  | Some s => VStr s
  | None => VNone
  end.

(** A group is stored as a list or as a tuple of strings. *)
Definition holds_group (g : Gmetric.obj) (o : option (list str)) : Prop :=
  match o with
  | None => g !! "gm_group" = Some VNone
  | Some l => g !! "gm_group" = Some (VList (VStr <$> l))
              \/ g !! "gm_group" = Some (VTuple (VStr <$> l))
  end.

(** The fields that [set_heartbeat] leaves alone, and the host name. *)
Record represents_meta (host : str) (g : Gmetric.obj) (d : descriptor)
  : Prop := {
  rep_myhost : g !! Gmetric.myhost_attr = Some (VStr host);
  rep_cluster : g !! "gm_cluster" = Some (opt_str (d_cluster d));
  rep_desc : g !! "gm_desc" = Some (opt_str (d_desc d));
  rep_title : g !! "gm_title" = Some (opt_str (d_title d));
  rep_group : holds_group g (d_group d);
  rep_spoof_host : g !! "gm_spoof_host" = Some (opt_str (d_spoof_host d))
}.

Record represents (host : str) (g : Gmetric.obj) (d : descriptor)
  : Prop := {
  rep_meta : represents_meta host g d;
  rep_name : g !! "gv_name" = Some (VStr (d_name d));
  rep_value : g !! "gv_value" = Some (VStr (d_value d));
  rep_type : g !! "gv_type" = Some (VType (d_type d));
  rep_units : g !! "gv_units" = Some (VStr (d_units d));
  rep_slope : g !! "gv_slope" = Some (VSlope (d_slope d));
  rep_tmax : g !! "gv_tmax" = Some (VInt (d_tmax d));
  rep_dmax : g !! "gv_dmax" = Some (VInt (d_dmax d));
  rep_spoof_heartbeat :
    g !! "gm_spoof_heartbeat" = Some (VBool (d_spoof_heartbeat d))
}.

(** The dictionary of a descriptor, with the group held as a list. *)
Definition to_obj (host : str) (d : descriptor) : Gmetric.obj :=
  <[Gmetric.myhost_attr := VStr host]>
  (<["gv_name" := VStr (d_name d)]>
  (<["gv_value" := VStr (d_value d)]>
  (<["gv_type" := VType (d_type d)]>
  (<["gv_units" := VStr (d_units d)]>
  (<["gv_slope" := VSlope (d_slope d)]>
  (<["gv_tmax" := VInt (d_tmax d)]>
  (<["gv_dmax" := VInt (d_dmax d)]>
  (<["gm_cluster" := opt_str (d_cluster d)]>
  (<["gm_group" := match d_group d with
                   | Some l => VList (VStr <$> l)
                   | None => VNone
                   end]>
  (<["gm_desc" := opt_str (d_desc d)]>
  (<["gm_title" := opt_str (d_title d)]>
  (<["gm_spoof_host" := opt_str (d_spoof_host d)]>
  (<["gm_spoof_heartbeat" := VBool (d_spoof_heartbeat d)]> ∅))))))))))))).

(** The descriptor that [set_heartbeat] produces. *)
Definition heartbeat_of (d : descriptor) : descriptor :=
  {| d_name := lit "heartbeat";
     d_value := lit "0";
     d_type := UINT32;
     d_units := [];
     d_slope := ZERO;
     d_tmax := 0;
     d_dmax := 0;
     d_cluster := d_cluster d;
     d_desc := d_desc d;
     d_title := d_title d;
     d_group := d_group d;
     d_spoof_host := d_spoof_host d;
     d_spoof_heartbeat := true |}.

(** ** The wire format, in the words of the specification *)
Module Wire.

(** Four-octet big-endian scalars. *)
Definition xdr_uint (z : Z) : bytes := xdrlib.be32 z.
Definition xdr_int (z : Z) : bytes := xdrlib.be32 (z mod 2 ^ 32).
Definition xdr_bool (b : bool) : bytes := xdrlib.be32 (if b then 1 else 0).

(** A string: its length, its octets, zero octets up to the next
    multiple of four. *)
Definition xdr_string (b : bytes) : bytes :=
  let n := Z.of_nat (length b) in
  xdr_uint n ++ b ++ repeat 0 (Z.to_nat ((- n) mod 4)).

Definition xdr_pair (kv : bytes * bytes) : bytes :=
  xdr_string (fst kv) ++ xdr_string (snd kv).

Definition xdr_pairs (l : list (bytes * bytes)) : bytes :=
  flat_map xdr_pair l.

(** The UTF-8 octets of a string that can be encoded. *)
Definition utf8_bytes (s : str) : bytes :=
  match Py.utf8 s with
  | Ok b => b
  | Raise _ => []
  end.

(** A string fits when it has a UTF-8 form whose length fits the
    32-bit length prefix. *)
Definition packable (s : str) : bool :=
  match Py.utf8 s with
  | Ok b => Z.of_nat (length b) <? 2 ^ 32
  | Raise _ => false
  end.

Definition packable_opt (o : option str) : bool :=
  match o with
  | Some s => packable s
  | None => true
  end.

(** An optional string is present when it is set and not empty: the
    test [if self.X:] of the encoder. *)
Definition present (o : option str) : bool :=
  match o with
  | Some (_ :: _) => true
  | _ => false
  end.

Definition is_set {A} (o : option A) : bool :=
  match o with
  | Some _ => true
  | None => false
  end.

(** The originating host. *)
Definition origin (host : str) (d : descriptor) : str :=
  match d_spoof_host d with
  | Some (c :: s) => c :: s
  | _ => host
  end.

Definition wire_name (d : descriptor) : str :=
  if d_spoof_heartbeat d then lit "heartbeat" else d_name d.

Definition spoofed (d : descriptor) : bool := present (d_spoof_host d).

(** The count of extra pairs as section 4.2 step 11 computes it: one for
    each of cluster, description, title and spoof host that is set (not
    [None]), one per group element, one for the heartbeat. *)
Definition extra_count (d : descriptor) : Z :=
  Z.b2z (is_set (d_cluster d)) + Z.b2z (is_set (d_desc d))
  + Z.b2z (is_set (d_title d)) + Z.b2z (is_set (d_spoof_host d))
  + Z.of_nat (length (default [] (d_group d)))
  + Z.b2z (d_spoof_heartbeat d).

Definition pair_of (key : string) (o : option str) : list (bytes * bytes) :=
  match o with
  | Some (c :: s) => [(lit key, utf8_bytes (c :: s))]
  | _ => []
  end.

(** The pairs that follow the count, in their order. *)
Definition extra_pairs (d : descriptor) : list (bytes * bytes) :=
  pair_of "CLUSTER" (d_cluster d)
  ++ pair_of "DESC" (d_desc d)
  ++ pair_of "TITLE" (d_title d)
  ++ ((fun e => (lit "GROUP", utf8_bytes e)) <$> default [] (d_group d))
  ++ pair_of "SPOOF_HOST" (d_spoof_host d)
  ++ (if d_spoof_heartbeat d then [(lit "SPOOF_HEARTBEAT", lit "yes")]
      else []).

(** The origin and the optional fields fit the wire. *)
Definition fits_meta (host : str) (d : descriptor) : bool :=
  packable (origin host d)
  && packable_opt (d_cluster d) && packable_opt (d_desc d)
  && packable_opt (d_title d)
  && forallb packable (default [] (d_group d))
  && (extra_count d <? 2 ^ 32).

(** A descriptor whose unsigned fields are 32-bit and whose strings can
    be packed. *)
Definition fits_wire (host : str) (d : descriptor) : bool :=
  fits_meta host d
  && packable (wire_name d) && packable (d_units d)
  && (0 <=? d_tmax d) && (d_tmax d <? 2 ^ 32)
  && (0 <=? d_dmax d) && (d_dmax d <? 2 ^ 32).

(** What the value record needs. *)
Definition fits_value (host : str) (d : descriptor) : bool :=
  packable (origin host d) && packable (wire_name d)
  && packable (d_value d).

(** The metadata record of section 4.2. *)
Definition metabuf (host : str) (d : descriptor) : bytes :=
  xdr_int 128
  ++ xdr_string (utf8_bytes (origin host d))
  ++ xdr_string (utf8_bytes (wire_name d))
  ++ xdr_bool (spoofed d)
  ++ xdr_string (utf8_bytes (TypeEnum_value (d_type d)))
  ++ xdr_string (utf8_bytes (wire_name d))
  ++ xdr_string (utf8_bytes (d_units d))
  ++ xdr_uint (SlopeEnum_value (d_slope d))
  ++ xdr_uint (d_tmax d)
  ++ xdr_uint (d_dmax d)
  ++ xdr_uint (extra_count d)
  ++ xdr_pairs (extra_pairs d).

(** The value record of section 4.2. *)
Definition valuebuf (host : str) (d : descriptor) : bytes :=
  xdr_int 133
  ++ xdr_string (utf8_bytes (origin host d))
  ++ xdr_string (utf8_bytes (wire_name d))
  ++ xdr_bool (spoofed d)
  ++ xdr_string (lit "%s")
  ++ xdr_string (utf8_bytes (d_value d)).

End Wire.

(** The form [ip:alias] with both parts non-empty, which the docstring
    and the data model ask of a spoof host. *)
Definition well_formed_spoof_host (s : str) : bool :=
  existsb (Z.eqb Gmetric.colon) s
  && negb (Nat.eqb (length (fst (Py.split_first Gmetric.colon s))) 0)
  && negb (Nat.eqb (length (snd (Py.split_first Gmetric.colon s))) 0).

(** ** Concrete descriptors *)
Module Examples.

(** A host called [box] whose resolver knows only the loopback name. *)
Definition E0 : env :=
  {| gethostname := lit "box";
     gethostbyname := fun h => if bool_decide (h = lit "127.0.0.1")
                               then Some 0x7F000001 else None;
     int_of_str := fun _ => None;
     str_of := fun _ => lit "?" |}.

(** The sample of the module docstring. *)
Definition temperature : descriptor :=
  {| d_name := lit "temperature";
     d_value := lit "28";
     d_type := INT8;
     d_units := lit "Celsius";
     d_slope := BOTH;
     d_tmax := 30;
     d_dmax := 360;
     d_cluster := None;
     d_desc := None;
     d_title := None;
     d_group := None;
     d_spoof_host := None;
     d_spoof_heartbeat := false |}.

(** A spoofed sample with every optional field set. *)
Definition voltage : descriptor :=
  {| d_name := lit "voltage";
     d_value := lit "220";
     d_type := INT16;
     d_units := lit "Voltage";
     d_slope := BOTH;
     d_tmax := 30;
     d_dmax := 120;
     d_cluster := Some (lit "lab");
     d_desc := Some (lit "mains");
     d_title := Some (lit "Mains voltage");
     d_group := Some [lit "power"; lit "rack1"];
     d_spoof_host := Some (lit "192.168.0.1:myswitch");
     d_spoof_heartbeat := false |}.

(** A fresh instance, as [Gmetric()] leaves it, and its typed view. *)
Definition fresh : Gmetric.obj := snd (Gmetric.new E0).

Definition defaults : descriptor :=
  {| d_name := [];
     d_value := [];
     d_type := STRING;
     d_units := [];
     d_slope := BOTH;
     d_tmax := 60;
     d_dmax := 0;
     d_cluster := None;
     d_desc := None;
     d_title := None;
     d_group := None;
     d_spoof_host := None;
     d_spoof_heartbeat := false |}.

(** [g = Gmetric(); g.gm_spoof_host = '192.168.0.1:myswitch'] *)
Definition switch : Gmetric.obj :=
  snd (Gmetric.__setattr__ E0 "gm_spoof_host"
         (VStr (lit "192.168.0.1:myswitch")) fresh).

Definition switch_descr : descriptor :=
  {| d_name := [];
     d_value := [];
     d_type := STRING;
     d_units := [];
     d_slope := BOTH;
     d_tmax := 60;
     d_dmax := 0;
     d_cluster := None;
     d_desc := None;
     d_title := None;
     d_group := None;
     d_spoof_host := Some (lit "192.168.0.1:myswitch");
     d_spoof_heartbeat := false |}.

(** [g = Gmetric(); g.gm_cluster = ''] *)
Definition blank_cluster : Gmetric.obj :=
  snd (Gmetric.__setattr__ E0 "gm_cluster" (VStr []) fresh).

(** [g = Gmetric(); g.gv_tmax = 2 ** 32] *)
Definition long_tmax : Gmetric.obj :=
  snd (Gmetric.__setattr__ E0 "gv_tmax" (VInt (2 ^ 32)) fresh).

(** [g = Gmetric(); g.set_heartbeat()]: a heartbeat without a spoof
    host. *)
Definition lone_heartbeat : Gmetric.obj :=
  snd (Gmetric.set_heartbeat E0 fresh).

(** The sender of the docstring, not yet opened, on a quiet network. *)
Definition sender0 : Sender.t :=
  {| Sender.dstaddr := (0x7F000001, 8649);
     Sender.ttl := 1;
     Sender.mysocket := None |}.

Definition world0 : Sender.world :=
  {| Sender.trace := []; Sender.faults := [] |}.

(** Two metrics sent back to back, as in the second example of the
    docstring. *)
Definition gtemp : Gmetric.obj := to_obj (lit "box") temperature.
Definition gvol : Gmetric.obj := to_obj (lit "box") voltage.

Definition after_gtemp : Sender.t * Sender.world :=
  snd (Sender.send E0 (Sender.Instance gtemp) (sender0, world0)).
Definition after_gvol : Sender.t * Sender.world :=
  snd (Sender.send E0 (Sender.Instance gvol) after_gtemp).

End Examples.

(** ** The enumerations' [from_str] *)

(** The outcome of a [from_str]: a member, or the [ValueError] whose
    message is [prefix % strval]. *)
Inductive from_str_result (A : Type) :=
| Member (a : A)
| Unsupported (prefix : string) (strval : str).
Arguments Member {A} a.
Arguments Unsupported {A} prefix strval.

(** [list(TypeEnum)] and [list(SlopeEnum)]: the members in the order of
    their definition. *)
Definition TypeEnum_members : list TypeEnum :=
  [STRING; INT8; UINT8; INT16; UINT16; INT32; UINT32; FLOAT; DOUBLE].

Definition SlopeEnum_members : list SlopeEnum :=
  [ZERO; POSITIVE; NEGATIVE; BOTH; UNSPECIFIED; DERIVATIVE].

(** [SlopeEnum.X.name] *)
Definition SlopeEnum_name (s : SlopeEnum) : str :=
  match s with
  | ZERO => lit "ZERO"
  | POSITIVE => lit "POSITIVE"
  | NEGATIVE => lit "NEGATIVE"
  | BOTH => lit "BOTH"
  | UNSPECIFIED => lit "UNSPECIFIED"
  | DERIVATIVE => lit "DERIVATIVE"
  end.

(** The loop [for x in members: if test(x): return x], then the
    [raise]. *)
Fixpoint first_member {A} (test : A -> bool) (members : list A)
    (prefix : string) (strval : str) : from_str_result A :=
  match members with
  | [] => Unsupported prefix strval
  | x :: rest => if test x then Member x
                 else first_member test rest prefix strval
  end.

Definition TypeEnum_from_str (strval : str) : from_str_result TypeEnum :=
  first_member (fun etype => bool_decide (strval = TypeEnum_value etype))
    TypeEnum_members "unsupported Type: %s" strval.

(** [upper] is [str.upper], a builtin of the interpreter. *)
Definition SlopeEnum_from_str (upper : str -> str) (strval : str)
  : from_str_result SlopeEnum :=
  let ustrval := upper strval in
  first_member (fun slope => bool_decide (SlopeEnum_name slope = ustrval))
    SlopeEnum_members "unsupported Slope: %s" strval.

(** [str.upper] on ASCII text: the letters a to z move to A to Z. *)
Definition ascii_upper (s : str) : str :=
  (fun c => if (97 <=? c) && (c <=? 122) then c - 32 else c) <$> s.

(** ** The command line: [gmetricgroups] *)
Module Main.

(** [s.split(sep)] for a one-character separator: the pieces between
    the separators; the empty string gives one empty piece. *)
Fixpoint split (sep : Z) (s : str) : list str :=
  match s with
  | [] => [[]]
  | c :: s' =>
      if c =? sep then [] :: split sep s'
      else match split sep s' with
           | piece :: rest => (c :: piece) :: rest
           | [] => [[c]]
           end
  end.

(** [sep.join(pieces)] *)
Fixpoint join (sep : Z) (pieces : list str) : str :=
  match pieces with
  | [] => []
  | [piece] => piece
  | piece :: rest => piece ++ sep :: join sep rest
  end.

Definition comma : Z := 44.

(** [return value.split(',')] *)
Definition gmetricgroups (val : str) : list str := split comma val.

End Main.

(** ** What validation guarantees *)

Definition quote_free (s : str) : Prop := ~ In Gmetric.quot s.

(** What a value must satisfy to be stored under a name by
    [__setattr__]; names that no check knows, and [gm_spoof_host], carry
    no guarantee. *)
Definition field_ok (E : env) (name : string) (v : value) : Prop :=
  if String.eqb name "gv_name" || String.eqb name "gv_value"
     || String.eqb name "gv_units"
  then exists s, v = VStr s /\ quote_free s
  else if String.eqb name "gv_type" then exists t, v = VType t
  else if String.eqb name "gv_slope" then exists s, v = VSlope s
  else if String.eqb name "gv_tmax" || String.eqb name "gv_dmax"
  then exists n, Py.int E v = Ok n /\ 0 <= n
  else if String.eqb name "gm_cluster" || String.eqb name "gm_desc"
          || String.eqb name "gm_title"
  then v = VNone \/ exists s, v = VStr s /\ quote_free s
  else if String.eqb name "gm_group"
  then v = VNone
       \/ exists l, (v = VList l \/ v = VTuple l)
                    /\ forall s, In (VStr s) l -> quote_free s
  else if String.eqb name "gm_spoof_heartbeat" then exists b, v = VBool b
  else True.

(** An instance all of whose attributes satisfy their check. *)
Definition validated (E : env) (g : Gmetric.obj) : Prop :=
  forall name v, g !! name = Some v -> field_ok E name v.

(** ** More concrete cases *)
Module Cases.

(** A sender whose socket 0 is open, after the call that opened it. *)
Definition opened : Sender.t * Sender.world :=
  snd (Sender.create_socket (Examples.sender0, Examples.world0)).

(** A sender to the multicast group 239.2.11.71 with ttl 4. *)
Definition mcast : Sender.t :=
  {| Sender.dstaddr := (0xEF020B47, 8649);
     Sender.ttl := 4;
     Sender.mysocket := None |}.

(** The same with a TTL that does not fit a C [int]. *)
Definition wide : Sender.t :=
  {| Sender.dstaddr := (0xEF020B47, 8649);
     Sender.ttl := 2 ^ 31;
     Sender.mysocket := None |}.

(** A network on which the third call fails, and a [send] on it. *)
Definition flaky : Sender.world :=
  {| Sender.trace := []; Sender.faults := [false; false; true] |}.

Definition half_sent : result unit * (Sender.t * Sender.world) :=
  Sender.send Examples.E0 (Sender.Instance Examples.gtemp)
    (Examples.sender0, flaky).

End Cases.

(** * Properties *)

(** ** The monads *)

Lemma mbind_ok {S A B} (c : M S A) (k : A -> M S B) s a s' :
  c s = (Ok a, s') -> mbind c k s = k a s'.
Proof. unfold mbind. intros ->. reflexivity. Qed.

(** ** The packer against the wire format *)

Lemma padding_eq n : 0 <= n -> (n + 3) / 4 * 4 - n = (- n) mod 4.
Proof. intros Hn. Z.div_mod_to_equations. lia. Qed.

Lemma pack_uint_ok z buf :
  0 <= z < 2 ^ 32 ->
  xdrlib.pack_uint (VInt z) buf = Ok (buf ++ Wire.xdr_uint z).
Proof.
  intros [H0 H1]. unfold xdrlib.pack_uint. simpl.
  destruct (Z.leb_spec 0 z); [|lia].
  destruct (Z.ltb_spec z (2 ^ 32)); [|lia].
  reflexivity.
Qed.

Lemma pack_int_ok z buf :
  - 2 ^ 31 <= z < 2 ^ 31 ->
  xdrlib.pack_int (VInt z) buf = Ok (buf ++ Wire.xdr_int z).
Proof.
  intros [H0 H1]. unfold xdrlib.pack_int. simpl.
  destruct (Z.leb_spec (- 2 ^ 31) z); [|lia].
  destruct (Z.ltb_spec z (2 ^ 31)); [|lia].
  reflexivity.
Qed.

Lemma pack_bool_ok b buf :
  xdrlib.pack_bool (VBool b) buf = Ok (buf ++ Wire.xdr_bool b).
Proof. destruct b; reflexivity. Qed.

Lemma pack_string_ok b buf :
  Z.of_nat (length b) < 2 ^ 32 ->
  xdrlib.pack_string b buf = Ok (buf ++ Wire.xdr_string b).
Proof.
  intros Hlen. unfold xdrlib.pack_string.
  rewrite pack_uint_ok by lia. simpl.
  unfold xdrlib.pack_fstring.
  destruct (Z.ltb_spec (Z.of_nat (length b)) 0); [lia|].
  rewrite Nat2Z.id, firstn_all, padding_eq by lia.
  unfold Wire.xdr_string. by rewrite <- !app_assoc.
Qed.

Lemma encode_packable s :
  Wire.packable s = true ->
  Py.encode (VStr s) = Ok (Wire.utf8_bytes s)
  /\ Z.of_nat (length (Wire.utf8_bytes s)) < 2 ^ 32.
Proof.
  unfold Wire.packable, Wire.utf8_bytes. simpl.
  destruct (Py.utf8 s) as [b|]; [|discriminate].
  intros H. split; [reflexivity|]. by apply Z.ltb_lt.
Qed.

Lemma encode_ok s :
  Wire.packable s = true -> Py.encode (VStr s) = Ok (Wire.utf8_bytes s).
Proof. intros H. by destruct (encode_packable s H). Qed.

Lemma packable_length s :
  Wire.packable s = true ->
  Z.of_nat (length (Wire.utf8_bytes s)) < 2 ^ 32.
Proof. intros H. by destruct (encode_packable s H). Qed.

(** Encoding and packing a string that fits. *)
Lemma pack_encoded s buf :
  Wire.packable s = true ->
  (b <- Py.encode (VStr s) ; xdrlib.pack_string b buf)%result
  = Ok (buf ++ Wire.xdr_string (Wire.utf8_bytes s)).
Proof.
  intros H. destruct (encode_packable s H) as [-> Hlen]. simpl.
  by apply pack_string_ok.
Qed.

(** ** The encoder on a typed descriptor *)

Lemma xdr_pairs_nil : Wire.xdr_pairs [] = [].
Proof. reflexivity. Qed.

Lemma xdr_pairs_cons k v l :
  Wire.xdr_pairs ((k, v) :: l)
  = Wire.xdr_string k ++ Wire.xdr_string v ++ Wire.xdr_pairs l.
Proof.
  unfold Wire.xdr_pairs, Wire.xdr_pair. cbn [flat_map fst snd].
  by rewrite <- app_assoc.
Qed.

Lemma xdr_pairs_app l1 l2 :
  Wire.xdr_pairs (l1 ++ l2) = Wire.xdr_pairs l1 ++ Wire.xdr_pairs l2.
Proof. apply flat_map_app. Qed.

(** The proofs below go through the lemmas above, never through the
    bodies of the packer and of the wire format. *)
#[local] Opaque lit Py.utf8 Py.encode.
#[local] Opaque xdrlib.pack_string xdrlib.pack_uint xdrlib.pack_int.
#[local] Opaque Wire.xdr_string Wire.xdr_uint Wire.xdr_int Wire.xdr_pairs
  Wire.utf8_bytes.

Section Encoder.
Variables (host : str) (g : Gmetric.obj) (d : descriptor).
Hypothesis Hmeta : represents_meta host g d.
Hypothesis Hhb :
  g !! "gm_spoof_heartbeat" = Some (VBool (d_spoof_heartbeat d)).

Lemma pack_targethost_spec buf :
  Wire.packable (Wire.origin host d) = true ->
  Gmetric.pack_targethost g buf
  = Ok (buf ++ Wire.xdr_string (Wire.utf8_bytes (Wire.origin host d))).
Proof.
  intros Hfit. unfold Gmetric.pack_targethost, Gmetric.getattr.
  rewrite (rep_myhost _ _ _ Hmeta), (rep_spoof_host _ _ _ Hmeta).
  unfold Wire.origin in *.
  destruct (d_spoof_host d) as [[|c s]|]; simpl; by apply pack_encoded.
Qed.

Lemma pack_spoofed_spec buf :
  Gmetric.pack_spoofed g buf = Ok (buf ++ Wire.xdr_bool (Wire.spoofed d)).
Proof.
  unfold Gmetric.pack_spoofed, Gmetric.getattr, Wire.spoofed.
  rewrite (rep_spoof_host _ _ _ Hmeta).
  destruct (d_spoof_host d) as [[|c s]|]; reflexivity.
Qed.

Lemma pack_name_spec buf :
  g !! "gv_name" = Some (VStr (d_name d)) ->
  Wire.packable (Wire.wire_name d) = true ->
  Gmetric.pack_name g buf
  = Ok (buf ++ Wire.xdr_string (Wire.utf8_bytes (Wire.wire_name d))).
Proof.
  intros Hname Hfit. unfold Gmetric.pack_name, Gmetric.getattr.
  rewrite Hhb. unfold Wire.wire_name in *. simpl.
  destruct (d_spoof_heartbeat d).
  - apply pack_string_ok. vm_compute. reflexivity.
  - rewrite Hname. simpl. by apply pack_encoded.
Qed.

Lemma pack_if_set_spec key attr o buf :
  g !! attr = Some (opt_str o) ->
  Wire.packable_opt o = true ->
  Z.of_nat (length (lit key)) < 2 ^ 32 ->
  Gmetric.pack_if_set key attr g buf
  = Ok (buf ++ Wire.xdr_pairs (Wire.pair_of key o)).
Proof.
  intros Hattr Hfit Hkey. unfold Gmetric.pack_if_set, Gmetric.getattr.
  rewrite Hattr.
  destruct o as [[|c s]|]; simpl;
    rewrite ?xdr_pairs_nil, ?app_nil_r; try done.
  rewrite pack_string_ok by done. simpl.
  rewrite pack_encoded by done.
  by rewrite xdr_pairs_cons, xdr_pairs_nil, app_nil_r, <- app_assoc.
Qed.

Lemma count_mlen_spec :
  Gmetric.count_mlen g = Ok (Wire.extra_count d).
Proof.
  unfold Gmetric.count_mlen, Gmetric.getattr, Wire.extra_count.
  rewrite (rep_cluster _ _ _ Hmeta), (rep_desc _ _ _ Hmeta),
    (rep_title _ _ _ Hmeta), (rep_spoof_host _ _ _ Hmeta), Hhb.
  pose proof (rep_group _ _ _ Hmeta) as Hgroup. unfold holds_group in Hgroup.
  destruct (d_group d) as [l|].
  - destruct Hgroup as [H|H]; rewrite H; simpl;
      rewrite ?H; simpl; rewrite ?length_fmap;
      destruct l, (d_cluster d), (d_desc d), (d_title d), (d_spoof_host d),
        (d_spoof_heartbeat d); simpl; f_equal; lia.
  - rewrite Hgroup. simpl.
    destruct (d_cluster d), (d_desc d), (d_title d), (d_spoof_host d),
      (d_spoof_heartbeat d); reflexivity.
Qed.

Lemma pack_group_items_spec (l : list str) buf :
  forallb Wire.packable l = true ->
  Gmetric.pack_group_items (VStr <$> l) buf
  = Ok (buf ++ Wire.xdr_pairs
                 ((fun e => (lit "GROUP", Wire.utf8_bytes e)) <$> l)).
Proof.
  revert buf. induction l as [|e l IH]; intros buf Hfit.
  - simpl. by rewrite xdr_pairs_nil, app_nil_r.
  - apply andb_prop in Hfit as [He Hl].
    rewrite !fmap_cons. cbn [Gmetric.pack_group_items].
    rewrite pack_string_ok by (vm_compute; reflexivity). simpl.
    rewrite encode_ok by done. simpl.
    rewrite pack_string_ok by (by apply packable_length). simpl.
    rewrite IH by done.
    by rewrite xdr_pairs_cons, <- !app_assoc.
Qed.

Lemma pack_group_spec buf :
  forallb Wire.packable (default [] (d_group d)) = true ->
  Gmetric.pack_group g buf
  = Ok (buf ++ Wire.xdr_pairs
                 ((fun e => (lit "GROUP", Wire.utf8_bytes e))
                    <$> default [] (d_group d))).
Proof.
  intros Hfit. pose proof (rep_group _ _ _ Hmeta) as Hgroup.
  unfold holds_group in Hgroup. unfold Gmetric.pack_group, Gmetric.getattr.
  destruct (d_group d) as [l|]; simpl in *.
  - destruct Hgroup as [H|H]; rewrite H; simpl;
      (destruct l as [|e l];
         [simpl; by rewrite xdr_pairs_nil, app_nil_r|]);
      rewrite fmap_cons; cbn [length Nat.eqb negb]; rewrite <- fmap_cons;
      by apply (pack_group_items_spec (e :: l)).
  - rewrite Hgroup. simpl. by rewrite xdr_pairs_nil, app_nil_r.
Qed.

Lemma __get_meta_meta_buf___spec buf :
  Wire.fits_meta host d = true ->
  Gmetric.__get_meta_meta_buf__ g buf
  = Ok (buf ++ Wire.xdr_uint (Wire.extra_count d)
            ++ Wire.xdr_pairs (Wire.extra_pairs d)).
Proof.
  unfold Wire.fits_meta. rewrite !andb_true_iff.
  intros [[[[[Horigin Hc] Hd] Ht] Hg] Hn].
  apply Z.ltb_lt in Hn.
  assert (0 <= Wire.extra_count d).
  { unfold Wire.extra_count.
    destruct (d_cluster d), (d_desc d), (d_title d), (d_spoof_host d),
      (d_spoof_heartbeat d); simpl; lia. }
  assert (Hsh : Wire.packable_opt (d_spoof_host d) = true).
  { unfold Wire.origin in Horigin.
    destruct (d_spoof_host d) as [[|c s]|]; done. }
  unfold Gmetric.__get_meta_meta_buf__.
  rewrite count_mlen_spec. simpl.
  rewrite pack_uint_ok by lia. simpl.
  rewrite (pack_if_set_spec _ _ (d_cluster d))
    by (done || apply (rep_cluster _ _ _ Hmeta)). simpl.
  rewrite (pack_if_set_spec _ _ (d_desc d))
    by (done || apply (rep_desc _ _ _ Hmeta)). simpl.
  rewrite (pack_if_set_spec _ _ (d_title d))
    by (done || apply (rep_title _ _ _ Hmeta)). simpl.
  rewrite pack_group_spec by done. simpl.
  rewrite (pack_if_set_spec _ _ (d_spoof_host d))
    by (done || apply (rep_spoof_host _ _ _ Hmeta)). simpl.
  unfold Gmetric.getattr. rewrite Hhb. simpl.
  unfold Wire.extra_pairs. rewrite !xdr_pairs_app.
  destruct (d_spoof_heartbeat d); simpl.
  - rewrite (pack_string_ok (lit "SPOOF_HEARTBEAT"))
      by (vm_compute; reflexivity).
    simpl.
    rewrite (pack_string_ok (lit "yes")) by (vm_compute; reflexivity).
    by rewrite xdr_pairs_cons, xdr_pairs_nil, app_nil_r, <- !app_assoc.
  - by rewrite xdr_pairs_nil, app_nil_r, <- !app_assoc.
Qed.

End Encoder.

(** The whole metadata record. *)
Lemma get_metabuf_spec host g d :
  represents host g d ->
  Wire.fits_wire host d = true ->
  Gmetric.get_metabuf g = Ok (Wire.metabuf host d).
Proof.
  intros Hrep. unfold Wire.fits_wire. rewrite !andb_true_iff.
  intros [[[[[[Hmeta Hname] Hunits] Ht0] Ht1] Hd0] Hd1].
  apply Z.leb_le in Ht0, Hd0. apply Z.ltb_lt in Ht1, Hd1.
  pose proof (rep_meta _ _ _ Hrep) as Hm.
  pose proof (rep_spoof_heartbeat _ _ _ Hrep) as Hhb.
  assert (Horigin : Wire.packable (Wire.origin host d) = true).
  { unfold Wire.fits_meta in Hmeta. rewrite !andb_true_iff in Hmeta.
    tauto. }
  unfold Gmetric.get_metabuf.
  rewrite pack_int_ok by lia. simpl.
  rewrite (pack_targethost_spec host g d) by done. simpl.
  unfold Gmetric.__get_meta_value_buf__.
  rewrite (pack_name_spec g d Hhb) by (done || apply (rep_name _ _ _ Hrep)).
  simpl.
  rewrite (pack_spoofed_spec host g d) by done. simpl.
  unfold Gmetric.getattr at 1. rewrite (rep_type _ _ _ Hrep). simpl.
  rewrite encode_ok by (by destruct (d_type d)). simpl.
  rewrite pack_string_ok
    by (apply packable_length; by destruct (d_type d)). simpl.
  rewrite (pack_name_spec g d Hhb) by (done || apply (rep_name _ _ _ Hrep)).
  simpl.
  unfold Gmetric.getattr at 1. rewrite (rep_units _ _ _ Hrep). simpl.
  rewrite encode_ok by done. simpl.
  rewrite pack_string_ok by (by apply packable_length). simpl.
  unfold Gmetric.getattr at 1. rewrite (rep_slope _ _ _ Hrep). simpl.
  rewrite pack_uint_ok by (destruct (d_slope d); simpl; lia). simpl.
  unfold Gmetric.getattr at 1. rewrite (rep_tmax _ _ _ Hrep). simpl.
  rewrite pack_uint_ok by lia. simpl.
  unfold Gmetric.getattr at 1. rewrite (rep_dmax _ _ _ Hrep). simpl.
  rewrite pack_uint_ok by lia. simpl.
  rewrite (__get_meta_meta_buf___spec host g d) by done. simpl.
  unfold xdrlib.get_buffer, Wire.metabuf, xdrlib.Packer.
  by rewrite <- !app_assoc.
Qed.

(** The whole value record. *)
Lemma get_valuebuf_spec E host g d :
  represents host g d ->
  Wire.fits_value host d = true ->
  Gmetric.get_valuebuf E g = Ok (Wire.valuebuf host d).
Proof.
  intros Hrep. unfold Wire.fits_value. rewrite !andb_true_iff.
  intros [[Horigin Hname] Hvalue].
  pose proof (rep_meta _ _ _ Hrep) as Hm.
  pose proof (rep_spoof_heartbeat _ _ _ Hrep) as Hhb.
  unfold Gmetric.get_valuebuf.
  rewrite pack_int_ok by lia. simpl.
  rewrite (pack_targethost_spec host g d) by done. simpl.
  rewrite (pack_name_spec g d Hhb) by (done || apply (rep_name _ _ _ Hrep)).
  simpl.
  rewrite (pack_spoofed_spec host g d) by done. simpl.
  rewrite pack_string_ok by (vm_compute; reflexivity). simpl.
  unfold Gmetric.getattr. rewrite (rep_value _ _ _ Hrep). simpl.
  rewrite pack_encoded by done.
  unfold Wire.valuebuf, xdrlib.Packer.
  by rewrite <- !app_assoc.
Qed.

#[local] Transparent lit Py.utf8 Py.encode.
#[local] Transparent xdrlib.pack_string xdrlib.pack_uint xdrlib.pack_int.
#[local] Transparent Wire.xdr_string Wire.xdr_uint Wire.xdr_int Wire.xdr_pairs
  Wire.utf8_bytes.

(** ** The encoder returns only for descriptors that fit *)

Lemma rbind_inv {A B} (c : result A) (k : A -> result B) b :
  rbind c k = Ok b -> exists a, c = Ok a /\ k a = Ok b.
Proof. destruct c as [a|e]; [eauto|discriminate]. Qed.

Lemma pack_uint_inv z buf buf' :
  xdrlib.pack_uint (VInt z) buf = Ok buf' -> 0 <= z < 2 ^ 32.
Proof.
  unfold xdrlib.pack_uint. cbn [xdrlib.index].
  destruct (Z.leb_spec 0 z), (Z.ltb_spec z (2 ^ 32)); try discriminate. lia.
Qed.

Lemma pack_string_inv b buf buf' :
  xdrlib.pack_string b buf = Ok buf' -> Z.of_nat (length b) < 2 ^ 32.
Proof.
  unfold xdrlib.pack_string. intros H.
  apply rbind_inv in H as (buf1 & H & _).
  apply pack_uint_inv in H. lia.
Qed.

Lemma packable_intro s b buf buf' :
  Py.encode (VStr s) = Ok b ->
  xdrlib.pack_string b buf = Ok buf' ->
  Wire.packable s = true.
Proof.
  unfold Py.encode, Wire.packable. intros -> H.
  apply pack_string_inv in H. by apply Z.ltb_lt.
Qed.

(** What a successful run of each step tells about the descriptor. *)
Section Inversion.
Variables (host : str) (g : Gmetric.obj) (d : descriptor).
Hypothesis Hmeta : represents_meta host g d.
Hypothesis Hhb :
  g !! "gm_spoof_heartbeat" = Some (VBool (d_spoof_heartbeat d)).

Lemma pack_targethost_inv buf buf' :
  Gmetric.pack_targethost g buf = Ok buf' ->
  Wire.packable (Wire.origin host d) = true.
Proof.
  unfold Gmetric.pack_targethost, Gmetric.getattr, Wire.origin.
  rewrite (rep_myhost _ _ _ Hmeta), (rep_spoof_host _ _ _ Hmeta).
  cbn [rbind].
  destruct (d_spoof_host d) as [[|c s]|]; cbn [opt_str Py.truthy length
    Nat.eqb negb rbind]; intros H;
    apply rbind_inv in H as (b & Hb & H); by eapply packable_intro.
Qed.

Lemma pack_name_inv buf buf' :
  g !! "gv_name" = Some (VStr (d_name d)) ->
  Gmetric.pack_name g buf = Ok buf' ->
  Wire.packable (Wire.wire_name d) = true.
Proof.
  intros Hname. unfold Gmetric.pack_name, Gmetric.getattr, Wire.wire_name.
  rewrite Hhb. cbn [rbind Py.truthy].
  destruct (d_spoof_heartbeat d); [intros _; vm_compute; reflexivity|].
  rewrite Hname. cbn [rbind]. intros H.
  apply rbind_inv in H as (b & Hb & H). by eapply packable_intro.
Qed.

Lemma pack_if_set_inv key attr o buf buf' :
  g !! attr = Some (opt_str o) ->
  Gmetric.pack_if_set key attr g buf = Ok buf' ->
  Wire.packable_opt o = true.
Proof.
  intros Hattr. unfold Gmetric.pack_if_set, Gmetric.getattr.
  rewrite Hattr. cbn [rbind].
  destruct o as [[|c s]|]; cbn [opt_str Py.truthy length Nat.eqb negb];
    [reflexivity| |reflexivity].
  intros H. apply rbind_inv in H as (b1 & _ & H). cbn [rbind] in H.
  apply rbind_inv in H as (b & Hb & H). by eapply packable_intro.
Qed.

Lemma pack_group_items_inv (l : list str) buf buf' :
  Gmetric.pack_group_items (VStr <$> l) buf = Ok buf' ->
  forallb Wire.packable l = true.
Proof.
  revert buf. induction l as [|e l IH]; intros buf H; [reflexivity|].
  rewrite fmap_cons in H. cbn [Gmetric.pack_group_items] in H.
  apply rbind_inv in H as (b1 & _ & H).
  apply rbind_inv in H as (b & Hb & H).
  apply rbind_inv in H as (b2 & Hp & H).
  cbn [forallb]. rewrite (packable_intro _ _ _ _ Hb Hp). cbn [andb].
  by eapply IH.
Qed.

Lemma pack_group_inv buf buf' :
  Gmetric.pack_group g buf = Ok buf' ->
  forallb Wire.packable (default [] (d_group d)) = true.
Proof.
  pose proof (rep_group _ _ _ Hmeta) as Hgroup. unfold holds_group in Hgroup.
  unfold Gmetric.pack_group, Gmetric.getattr.
  destruct (d_group d) as [l|]; [|reflexivity].
  destruct l as [|e l]; [reflexivity|].
  cbn [default].
  destruct Hgroup as [H|H]; rewrite H; cbn [rbind]; rewrite fmap_cons;
    cbn [Py.truthy length Nat.eqb negb Gmetric.iter rbind];
    rewrite <- fmap_cons; apply pack_group_items_inv.
Qed.

Lemma __get_meta_meta_buf___inv buf buf' :
  Gmetric.__get_meta_meta_buf__ g buf = Ok buf' ->
  Wire.packable_opt (d_cluster d) = true
  /\ Wire.packable_opt (d_desc d) = true
  /\ Wire.packable_opt (d_title d) = true
  /\ forallb Wire.packable (default [] (d_group d)) = true
  /\ Wire.extra_count d < 2 ^ 32.
Proof.
  unfold Gmetric.__get_meta_meta_buf__. intros H.
  rewrite (count_mlen_spec host g d Hmeta Hhb) in H. cbn [rbind] in H.
  apply rbind_inv in H as (b0 & Hn & H). apply pack_uint_inv in Hn.
  apply rbind_inv in H as (b1 & Hc & H).
  apply (pack_if_set_inv _ _ (d_cluster d)) in Hc; [|apply (rep_cluster _ _ _ Hmeta)].
  apply rbind_inv in H as (b2 & Hd & H).
  apply (pack_if_set_inv _ _ (d_desc d)) in Hd; [|apply (rep_desc _ _ _ Hmeta)].
  apply rbind_inv in H as (b3 & Ht & H).
  apply (pack_if_set_inv _ _ (d_title d)) in Ht; [|apply (rep_title _ _ _ Hmeta)].
  apply rbind_inv in H as (b4 & Hg & H).
  apply pack_group_inv in Hg.
  repeat split; try done. lia.
Qed.

End Inversion.

(** [get_metabuf] returns only for a descriptor that fits the wire. *)
Lemma get_metabuf_fits host g d buf :
  represents host g d ->
  Gmetric.get_metabuf g = Ok buf ->
  Wire.fits_wire host d = true.
Proof.
  intros Hrep H.
  pose proof (rep_meta _ _ _ Hrep) as Hm.
  pose proof (rep_spoof_heartbeat _ _ _ Hrep) as Hhb.
  unfold Gmetric.get_metabuf in H.
  apply rbind_inv in H as (b0 & _ & H).
  apply rbind_inv in H as (b1 & Horigin & H).
  apply (pack_targethost_inv host g d Hm) in Horigin.
  apply rbind_inv in H as (b2 & Hvalue & H).
  apply rbind_inv in H as (b3 & Hmm & _).
  apply (__get_meta_meta_buf___inv host g d Hm Hhb) in Hmm
    as (Hc & Hd & Ht & Hg & Hn).
  unfold Gmetric.__get_meta_value_buf__ in Hvalue.
  apply rbind_inv in Hvalue as (c1 & Hname & Hvalue).
  apply (pack_name_inv g d Hhb) in Hname; [|apply (rep_name _ _ _ Hrep)].
  apply rbind_inv in Hvalue as (c2 & _ & Hvalue).
  apply rbind_inv in Hvalue as (ty & _ & Hvalue).
  apply rbind_inv in Hvalue as (tyv & _ & Hvalue).
  apply rbind_inv in Hvalue as (tb & _ & Hvalue).
  apply rbind_inv in Hvalue as (c3 & _ & Hvalue).
  apply rbind_inv in Hvalue as (c4 & _ & Hvalue).
  unfold Gmetric.getattr in Hvalue.
  rewrite (rep_units _ _ _ Hrep), (rep_slope _ _ _ Hrep),
    (rep_tmax _ _ _ Hrep), (rep_dmax _ _ _ Hrep) in Hvalue.
  cbn [rbind] in Hvalue.
  apply rbind_inv in Hvalue as (ub & Hub & Hvalue).
  apply rbind_inv in Hvalue as (c5 & Hunits & Hvalue).
  pose proof (packable_intro _ _ _ _ Hub Hunits) as Hu.
  cbn [Py.dot_value rbind] in Hvalue.
  apply rbind_inv in Hvalue as (c6 & _ & Hvalue).
  apply rbind_inv in Hvalue as (c7 & Htmax & Hdmax).
  apply pack_uint_inv in Htmax, Hdmax.
  unfold Wire.fits_wire, Wire.fits_meta.
  rewrite Horigin, Hc, Hd, Ht, Hg, Hname, Hu.
  destruct (Z.ltb_spec (Wire.extra_count d) (2 ^ 32)),
    (Z.leb_spec 0 (d_tmax d)), (Z.ltb_spec (d_tmax d) (2 ^ 32)),
    (Z.leb_spec 0 (d_dmax d)), (Z.ltb_spec (d_dmax d) (2 ^ 32));
    (reflexivity || lia).
Qed.

Lemma get_valuebuf_fits E host g d buf :
  represents host g d ->
  Gmetric.get_valuebuf E g = Ok buf ->
  Wire.fits_value host d = true.
Proof.
  intros Hrep H.
  pose proof (rep_meta _ _ _ Hrep) as Hm.
  pose proof (rep_spoof_heartbeat _ _ _ Hrep) as Hhb.
  unfold Gmetric.get_valuebuf in H.
  apply rbind_inv in H as (b0 & _ & H).
  apply rbind_inv in H as (b1 & Horigin & H).
  apply (pack_targethost_inv host g d Hm) in Horigin.
  apply rbind_inv in H as (b2 & Hname & H).
  apply (pack_name_inv g d Hhb) in Hname; [|apply (rep_name _ _ _ Hrep)].
  apply rbind_inv in H as (b3 & _ & H).
  apply rbind_inv in H as (b4 & _ & H).
  unfold Gmetric.getattr in H. rewrite (rep_value _ _ _ Hrep) in H.
  cbn [rbind Py.to_str] in H.
  apply rbind_inv in H as (vb & Hvb & H).
  unfold Wire.fits_value.
  by rewrite Horigin, Hname, (packable_intro _ _ _ _ Hvb H).
Qed.

(** ** Typed descriptors and their dictionaries *)

Lemma to_obj_represents host d : represents host (to_obj host d) d.
Proof.
  unfold to_obj, Gmetric.myhost_attr.
  split; [split|..]; try by simplify_map_eq.
  unfold holds_group. destruct (d_group d); [left|]; by simplify_map_eq.
Qed.

(** ** Validation on assignment *)

(** The names that [object] keeps out of the instance dictionary do not
    start with a letter. *)
Lemma object_setattr_checked name val :
  Py.startswith "gv_" name = true \/ Py.startswith "gm_" name = true ->
  Gmetric.object_setattr name val = mmodify (insert name val).
Proof.
  intros Hpre. unfold Gmetric.object_setattr.
  destruct (String.eqb_spec name "__class__") as [->|_];
    [by destruct Hpre|].
  destruct (String.eqb_spec name "__dict__") as [->|_];
    [by destruct Hpre|].
  destruct (String.eqb_spec name "__weakref__") as [->|_];
    [by destruct Hpre|].
  reflexivity.
Qed.

(** A stored attribute, once its check has passed. *)
Lemma __setattr___gv E name val g r :
  Py.startswith "gv_" name = true ->
  Gmetric.__check_gv_var__ E (Py.remove_first "gv_" name) val = r ->
  Gmetric.__setattr__ E name val g
  = match r with
    | Ok _ => (Ok tt, <[name := val]> g)
    | Raise e => (Raise e, g)
    end.
Proof.
  intros Hpre <-. unfold Gmetric.__setattr__, mbind, mlift. rewrite Hpre.
  rewrite object_setattr_checked by by left.
  by destruct (Gmetric.__check_gv_var__ _ _ _) as [[]|].
Qed.

Lemma __setattr___gm E name val g r :
  Py.startswith "gv_" name = false ->
  Py.startswith "gm_" name = true ->
  Gmetric.__check_gm_var__ (Py.remove_first "gm_" name) val = r ->
  Gmetric.__setattr__ E name val g
  = match r with
    | Ok _ => (Ok tt, <[name := val]> g)
    | Raise e => (Raise e, g)
    end.
Proof.
  intros Hgv Hgm <-. unfold Gmetric.__setattr__, mbind, mlift.
  rewrite Hgv, Hgm. rewrite object_setattr_checked by by right.
  by destruct (Gmetric.__check_gm_var__ _ _) as [[]|].
Qed.

Lemma existsb_quot s :
  In Gmetric.quot s -> existsb (Z.eqb Gmetric.quot) s = true.
Proof.
  intros H. apply existsb_exists. exists Gmetric.quot.
  split; [done|apply Z.eqb_refl].
Qed.

Lemma __check_containing_quot___quoted s :
  In Gmetric.quot s ->
  Gmetric.__check_containing_quot__ (VStr s) = Ok (VBool true).
Proof.
  intros H. unfold Gmetric.__check_containing_quot__, Py.and_.
  destruct s as [|c s]; [destruct H|].
  simpl Py.truthy. cbn iota. unfold Py.contains. cbn [rbind].
  by rewrite (existsb_quot (c :: s) H).
Qed.

(** On a string the quote test returns without raising. *)
Lemma __check_containing_quot___str s :
  exists q, Gmetric.__check_containing_quot__ (VStr s) = Ok q
            /\ (Py.truthy q = false -> ~ In Gmetric.quot s).
Proof.
  unfold Gmetric.__check_containing_quot__, Py.and_.
  destruct s as [|c s].
  - exists (VStr []). split; [done|]. intros _ [].
  - simpl Py.truthy. cbn iota. unfold Py.contains. cbn [rbind].
    eexists. split; [reflexivity|]. cbn [Py.truthy].
    intros Hq Hin. by rewrite (existsb_quot (c :: s) Hin) in Hq.
Qed.

Lemma check_group_items_quoted (l : list str) e :
  In e l -> In Gmetric.quot e ->
  Gmetric.check_group_items (VStr <$> l) = Raise (ValueError "").
Proof.
  induction l as [|x l IH]; intros Hin Hq; [destruct Hin|].
  rewrite fmap_cons. cbn [Gmetric.check_group_items].
  destruct (__check_containing_quot___str x) as (q & -> & Hfalse).
  cbn [rbind]. destruct (Py.truthy q) eqn:Hq'; [done|].
  destruct Hin as [->|Hin]; [by destruct (Hfalse eq_refl)|by apply IH].
Qed.

(** The validator of the spoof host never returns a true value. *)
Lemma __validate_spoof_host___falsy val r :
  Gmetric.__validate_spoof_host__ val = Ok r -> Py.truthy r = false.
Proof.
  unfold Gmetric.__validate_spoof_host__.
  destruct (Py.contains Gmetric.colon val) as [c|]; [|discriminate].
  cbn [rbind]. destruct c; cbn [negb]; [|by intros [= <-]].
  destruct (Py.split1 Gmetric.colon val) as [[ip alias]|]; [|discriminate].
  cbn [rbind]. by destruct (_ || _); intros [= <-].
Qed.

Lemma __check_gm_var___spoof_host val :
  Py.is_str val = true ->
  Gmetric.__check_gm_var__ "spoof_host" val = Ok tt.
Proof.
  destruct val as [| | |s| | | |]; try discriminate. intros _.
  change (Gmetric.__check_gm_var__ "spoof_host" (VStr s))
    with (q <- Py.and_ (VStr s) (Gmetric.__validate_spoof_host__ (VStr s)) ;
          if Py.truthy q then Raise (ValueError "") else Ok tt)%result.
  unfold Py.and_.
  destruct (Py.truthy (VStr s)) eqn:Hs; [|by cbn [rbind]; rewrite Hs].
  destruct (Gmetric.__validate_spoof_host__ (VStr s)) as [r|] eqn:Hr.
  - cbn [rbind]. by rewrite (__validate_spoof_host___falsy _ _ Hr).
  - unfold Gmetric.__validate_spoof_host__ in Hr. simpl in Hr.
    destruct (existsb _ s); simpl in Hr; [|discriminate].
    destruct (Py.split_first Gmetric.colon s). simpl in Hr.
    by destruct (_ || _).
Qed.

(** C1 (the code departs from the claim).  The claim asks that a
    malformed, non-empty spoof host be refused with the field kept.  In
    the code the validator returns [False] or [None], never a true
    value, so [__check_gm_var__] never raises for a string: the string
    [nocolon], which has no colon, is stored like any other. *)
Theorem spoof_host_never_rejected E (g : Gmetric.obj) :
  well_formed_spoof_host (lit "nocolon") = false
  /\ forall s : str,
       Gmetric.__setattr__ E "gm_spoof_host" (VStr s) g
       = (Ok tt, <["gm_spoof_host" := VStr s]> g).
Proof.
  split; [reflexivity|]. intros s.
  by rewrite (__setattr___gm E "gm_spoof_host" (VStr s) g (Ok tt)
                eq_refl eq_refl (__check_gm_var___spoof_host (VStr s) eq_refl)).
Qed.

(** The six string fields that are assigned one string at a time. *)
Lemma __setattr___quoted E attr s (g : Gmetric.obj) :
  In attr ["gv_name"; "gv_value"; "gv_units";
           "gm_cluster"; "gm_desc"; "gm_title"]%string ->
  In Gmetric.quot s ->
  Gmetric.__setattr__ E attr (VStr s) g = (Raise (ValueError ""), g).
Proof.
  intros Hattr Hq.
  pose proof (__check_containing_quot___quoted s Hq) as Hcheck.
  assert (Htrue : Py.truthy (VStr s) = true) by (by destruct s; [destruct Hq|]).
  simpl in Hattr.
  destruct Hattr as [<-|[<-|[<-|[<-|[<-|[<-|[]]]]]]].
  1-3: erewrite __setattr___gv; [|reflexivity|];
       [|change (Gmetric.__check_gv_var__ E _ (VStr s))
           with (q <- Gmetric.__check_containing_quot__ (VStr s) ;
                 if Py.truthy q then Raise (ValueError "") else Ok tt)%result;
         rewrite Hcheck; reflexivity]; reflexivity.
  all: erewrite __setattr___gm; [|reflexivity|reflexivity|];
       [|change (Gmetric.__check_gm_var__ _ (VStr s))
           with (q <- Py.and_ (VStr s)
                        (Gmetric.__check_containing_quot__ (VStr s)) ;
                 if Py.truthy q then Raise (ValueError "") else Ok tt)%result;
         unfold Py.and_; rewrite Htrue, Hcheck; reflexivity]; reflexivity.
Qed.

(** A group, given as a list or as a tuple of strings. *)
Lemma __setattr___group_quoted E (l : list str) e (g : Gmetric.obj) :
  In e l -> In Gmetric.quot e ->
  Gmetric.__setattr__ E "gm_group" (VList (VStr <$> l)) g
  = (Raise (ValueError ""), g)
  /\ Gmetric.__setattr__ E "gm_group" (VTuple (VStr <$> l)) g
     = (Raise (ValueError ""), g).
Proof.
  intros Hin Hq.
  pose proof (check_group_items_quoted l e Hin Hq) as Hitems.
  split.
  all: erewrite __setattr___gm; [|reflexivity|reflexivity|];
       [|match goal with
         | |- Gmetric.__check_gm_var__ _ ?v = _ =>
             change (Gmetric.__check_gm_var__ (Py.remove_first "gm_" "gm_group") v)
               with (Gmetric.check_group_items (VStr <$> l))
         end; exact Hitems]; reflexivity.
Qed.

(** C4.  Assigning a string that contains a double quote to [gv_name],
    [gv_value], [gv_units], [gm_cluster], [gm_desc] or [gm_title], or
    assigning to [gm_group] a list or tuple of strings one of which
    contains a double quote, raises [ValueError] and leaves the instance
    as it was, so the field keeps its previous value. *)
Theorem quoted_string_rejected E (g : Gmetric.obj) :
  (forall attr s,
      In attr ["gv_name"; "gv_value"; "gv_units";
               "gm_cluster"; "gm_desc"; "gm_title"]%string ->
      In Gmetric.quot s ->
      Gmetric.__setattr__ E attr (VStr s) g = (Raise (ValueError ""), g))
  /\ (forall (l : list str) e,
         In e l -> In Gmetric.quot e ->
         Gmetric.__setattr__ E "gm_group" (VList (VStr <$> l)) g
         = (Raise (ValueError ""), g)
         /\ Gmetric.__setattr__ E "gm_group" (VTuple (VStr <$> l)) g
            = (Raise (ValueError ""), g)).
Proof.
  split.
  - intros attr s. apply __setattr___quoted.
  - intros l e. apply __setattr___group_quoted.
Qed.

Lemma quoted_string_rejected_witness :
  Gmetric.__setattr__ Examples.E0 "gv_name" (VStr [97; 34; 98]) Examples.fresh
  = (Raise (ValueError ""), Examples.fresh)
  /\ Gmetric.__setattr__ Examples.E0 "gm_group"
       (VList (VStr <$> [lit "ok"; [97; 34; 98]])) Examples.fresh
     = (Raise (ValueError ""), Examples.fresh).
Proof.
  destruct (quoted_string_rejected Examples.E0 Examples.fresh) as [Hstr Hgroup].
  split.
  - apply Hstr.
    + left. reflexivity.
    + right. left. reflexivity.
  - apply (Hgroup [lit "ok"; [97; 34; 98]] [97; 34; 98]).
    + right. left. reflexivity.
    + right. left. reflexivity.
Defined.

(** ** The heartbeat transform *)

Lemma set_heartbeat_run E (g : Gmetric.obj) :
  Gmetric.set_heartbeat E g
  = (Ok tt,
     <["gm_spoof_heartbeat" := VBool true]>
     (<["gv_dmax" := VInt 0]>
     (<["gv_tmax" := VInt 0]>
     (<["gv_slope" := VSlope ZERO]>
     (<["gv_units" := VStr []]>
     (<["gv_value" := VStr (lit "0")]>
     (<["gv_type" := VType UINT32]>
     (<["gv_name" := VStr (lit "heartbeat")]> g)))))))).
Proof. reflexivity. Qed.

Lemma set_heartbeat_represents E host (g g' : Gmetric.obj) d :
  represents_meta host g d ->
  Gmetric.set_heartbeat E g = (Ok tt, g') ->
  represents host g' (heartbeat_of d).
Proof.
  intros [Hhost Hc Hd Ht Hg Hs]. rewrite set_heartbeat_run. intros [= <-].
  unfold Gmetric.myhost_attr in *.
  split; [split|..]; simpl; try by simplify_map_eq.
  unfold holds_group in *.
  destruct (d_group d); [destruct Hg; [left|right]|]; by simplify_map_eq.
Qed.

Lemma fits_heartbeat host d :
  Wire.fits_meta host (heartbeat_of d) = true ->
  Wire.fits_wire host (heartbeat_of d) = true.
Proof. unfold Wire.fits_wire. intros ->. reflexivity. Qed.

(** C5.  Whatever [gv_name], [gv_type], [gv_value], [gv_units],
    [gv_slope], [gv_tmax], [gv_dmax] and [gm_spoof_heartbeat] held before
    (the hypothesis says nothing about them), [set_heartbeat()] returns
    normally, and any metadata buffer of the resulting instance carries
    the name [heartbeat] (twice), the type tag [uint32], empty units,
    slope 0, tmax 0 and dmax 0, around the origin and the optional
    fields that the instance already had.  Such a buffer exists exactly
    when the origin and the optional fields fit the wire. *)
Theorem set_heartbeat_metabuf E host (g : Gmetric.obj) d :
  represents_meta host g d ->
  exists g',
    Gmetric.set_heartbeat E g = (Ok tt, g')
    /\ ((exists buf, Gmetric.get_metabuf g' = Ok buf)
        <-> Wire.fits_meta host (heartbeat_of d) = true)
    /\ forall buf,
         Gmetric.get_metabuf g' = Ok buf ->
         buf = Wire.xdr_int 128
               ++ Wire.xdr_string (Wire.utf8_bytes (Wire.origin host d))
               ++ Wire.xdr_string (lit "heartbeat")
               ++ Wire.xdr_bool (Wire.spoofed d)
               ++ Wire.xdr_string (lit "uint32")
               ++ Wire.xdr_string (lit "heartbeat")
               ++ Wire.xdr_string []
               ++ Wire.xdr_uint 0
               ++ Wire.xdr_uint 0
               ++ Wire.xdr_uint 0
               ++ Wire.xdr_uint (Wire.extra_count (heartbeat_of d))
               ++ Wire.xdr_pairs (Wire.extra_pairs (heartbeat_of d)).
Proof.
  intros Hmeta. eexists. split; [apply set_heartbeat_run|].
  pose proof (set_heartbeat_represents E host g _ d Hmeta
                (set_heartbeat_run E g)) as Hrep.
  split; [split|].
  - intros [buf Hbuf]. apply (get_metabuf_fits _ _ _ _ Hrep) in Hbuf.
    unfold Wire.fits_wire in Hbuf. rewrite !andb_true_iff in Hbuf. tauto.
  - intros Hfit. eexists. apply (get_metabuf_spec _ _ _ Hrep).
    by apply fits_heartbeat.
  - intros buf Hbuf.
    pose proof (get_metabuf_fits _ _ _ _ Hrep Hbuf) as Hfit.
    rewrite (get_metabuf_spec _ _ _ Hrep Hfit) in Hbuf.
    by injection Hbuf as <-.
Qed.

Lemma set_heartbeat_metabuf_witness :
  exists g',
    Gmetric.set_heartbeat Examples.E0 Examples.switch = (Ok tt, g')
    /\ (exists buf, Gmetric.get_metabuf g' = Ok buf)
    /\ forall buf,
         Gmetric.get_metabuf g' = Ok buf ->
         buf = Wire.xdr_int 128
               ++ Wire.xdr_string (lit "192.168.0.1:myswitch")
               ++ Wire.xdr_string (lit "heartbeat")
               ++ Wire.xdr_bool true
               ++ Wire.xdr_string (lit "uint32")
               ++ Wire.xdr_string (lit "heartbeat")
               ++ Wire.xdr_string []
               ++ Wire.xdr_uint 0
               ++ Wire.xdr_uint 0
               ++ Wire.xdr_uint 0
               ++ Wire.xdr_uint 2
               ++ Wire.xdr_pairs
                    [(lit "SPOOF_HOST", lit "192.168.0.1:myswitch");
                     (lit "SPOOF_HEARTBEAT", lit "yes")].
Proof.
  destruct (set_heartbeat_metabuf Examples.E0 (lit "box") Examples.switch
              Examples.switch_descr) as (g' & Hrun & Hiff & Hlayout).
  - split; vm_compute; reflexivity.
  - exists g'. split; [exact Hrun|]. split; [|exact Hlayout].
    apply Hiff. vm_compute. reflexivity.
Defined.

(** ** The two records *)

(** The count and the pairs agree as long as no optional string is set
    to the empty string. *)
Lemma extra_count_pairs d :
  d_cluster d <> Some [] -> d_desc d <> Some [] -> d_title d <> Some [] ->
  d_spoof_host d <> Some [] ->
  Wire.extra_count d = Z.of_nat (length (Wire.extra_pairs d)).
Proof.
  unfold Wire.extra_count, Wire.extra_pairs. intros Hc Hd Ht Hs.
  rewrite !length_app, length_fmap.
  destruct (d_cluster d) as [[|? ?]|], (d_desc d) as [[|? ?]|],
    (d_title d) as [[|? ?]|], (d_spoof_host d) as [[|? ?]|],
    (d_spoof_heartbeat d); try done; simpl; lia.
Qed.



(** C3.  Any buffer that [get_valuebuf] returns for a typed descriptor
    consists, in this order, of: int32 133; the originating host; the
    metric name ([heartbeat] for a heartbeat); the boolean that is true
    iff the spoof host is set and non-empty; the string [%s], whatever
    the declared type; the value as a string.  A buffer is returned
    exactly when the origin, the name and the value have a UTF-8 form
    that fits. *)
Theorem get_valuebuf_layout E host (g : Gmetric.obj) d :
  represents host g d ->
  ((exists buf, Gmetric.get_valuebuf E g = Ok buf)
   <-> Wire.fits_value host d = true)
  /\ forall buf,
       Gmetric.get_valuebuf E g = Ok buf ->
       buf = Wire.xdr_int 133
             ++ Wire.xdr_string (Wire.utf8_bytes (Wire.origin host d))
             ++ Wire.xdr_string (Wire.utf8_bytes (Wire.wire_name d))
             ++ Wire.xdr_bool (Wire.spoofed d)
             ++ Wire.xdr_string (lit "%s")
             ++ Wire.xdr_string (Wire.utf8_bytes (d_value d)).
Proof.
  intros Hrep. split; [split|].
  - intros [buf Hbuf]. by apply (get_valuebuf_fits _ _ _ _ _ Hrep) in Hbuf.
  - intros Hfit. eexists. by apply (get_valuebuf_spec _ _ _ _ Hrep).
  - intros buf Hbuf.
    pose proof (get_valuebuf_fits _ _ _ _ _ Hrep Hbuf) as Hfit.
    rewrite (get_valuebuf_spec _ _ _ _ Hrep Hfit) in Hbuf.
    by injection Hbuf as <-.
Qed.

Lemma get_valuebuf_layout_witness :
  (exists buf, Gmetric.get_valuebuf Examples.E0 Examples.gtemp = Ok buf)
  /\ forall buf,
       Gmetric.get_valuebuf Examples.E0 Examples.gtemp = Ok buf ->
       buf = Wire.xdr_int 133
             ++ Wire.xdr_string (lit "box")
             ++ Wire.xdr_string (lit "temperature")
             ++ Wire.xdr_bool false
             ++ Wire.xdr_string (lit "%s")
             ++ Wire.xdr_string (lit "28").
Proof.
  destruct (get_valuebuf_layout Examples.E0 (lit "box") Examples.gtemp
              Examples.temperature) as [Hiff Hlayout].
  - split; [split|..]; vm_compute; reflexivity.
  - split; [|exact Hlayout]. apply Hiff. vm_compute. reflexivity.
Defined.

(** ** The count of extra pairs *)

(** C10 (the code departs from the claim).  The claim asks that the
    count written before the pairs be the number of pairs that follow,
    also when an optional field is the empty string.  The count tests
    [is not None], the emission tests truth: after
    [g = Gmetric(); g.gm_cluster = ''], an assignment that validation
    accepts, the buffer ends with the count 1 and no pair at all. *)
Theorem blank_cluster_counted_not_emitted :
  fst (Gmetric.__setattr__ Examples.E0 "gm_cluster" (VStr []) Examples.fresh)
  = Ok tt
  /\ Gmetric.get_metabuf Examples.blank_cluster
     = Ok (Wire.xdr_int 128
           ++ Wire.xdr_string (lit "box")
           ++ Wire.xdr_string []
           ++ Wire.xdr_bool false
           ++ Wire.xdr_string (lit "string")
           ++ Wire.xdr_string []
           ++ Wire.xdr_string []
           ++ Wire.xdr_uint 3
           ++ Wire.xdr_uint 60
           ++ Wire.xdr_uint 0
           ++ Wire.xdr_uint 1
           ++ Wire.xdr_pairs []).
Proof. split; vm_compute; reflexivity. Qed.

(** ** Failures inside the encoder *)

(** C8 (the code departs from the claim).  The claim asks that a
    descriptor whose assignments all passed validation always encodes.
    The check of [gv_tmax] is [int(value) < 0] only: after
    [g = Gmetric(); g.gv_tmax = 2 ** 32] every assignment has passed, the
    instance is not a heartbeat, and [get_metabuf] raises
    [xdrlib.ConversionError] from [pack_uint]. *)
Theorem long_tmax_accepted_not_encoded :
  fst (Gmetric.new Examples.E0) = Ok tt
  /\ fst (Gmetric.__setattr__ Examples.E0 "gv_tmax" (VInt (2 ^ 32))
            Examples.fresh)
     = Ok tt
  /\ Examples.long_tmax !! "gm_spoof_heartbeat" = Some (VBool false)
  /\ Gmetric.get_metabuf Examples.long_tmax = Raise ConversionError.
Proof. repeat split; vm_compute; reflexivity. Qed.

(** ** The sender *)

Lemma mbind_inv {S A B} (c : M S A) (k : A -> M S B) s b s' :
  mbind c k s = (Ok b, s') ->
  exists a s1, c s = (Ok a, s1) /\ k a s1 = (Ok b, s').
Proof.
  unfold mbind. destruct (c s) as [[a|e] s1]; [eauto|discriminate].
Qed.

Lemma mlift_inv {S A} (r : result A) (s s' : S) a :
  mlift r s = (Ok a, s') -> r = Ok a /\ s' = s.
Proof. unfold mlift. by intros [= -> ->]. Qed.

Lemma syscall_ok ev w w' :
  Sender.syscall ev w = (Ok tt, w') ->
  Sender.trace w' = Sender.trace w ++ [ev].
Proof.
  unfold Sender.syscall.
  destruct (Sender.faults w) as [|[] rest]; by intros [= <-].
Qed.

Lemma datagrams_snoc w w' ev :
  Sender.trace w' = Sender.trace w ++ [ev] ->
  Sender.datagrams w'
  = Sender.datagrams w
    ++ match ev with
       | Sender.Sendto _ data addr => [(data, addr)]
       | _ => []
       end.
Proof.
  unfold Sender.datagrams. intros ->. rewrite omap_app.
  by destruct ev.
Qed.

(** Opening a socket sends nothing and keeps the destination. *)
Lemma create_socket_ok self w self' w' :
  Sender.create_socket (self, w) = (Ok tt, (self', w')) ->
  Sender.datagrams w' = Sender.datagrams w
  /\ Sender.dstaddr self' = Sender.dstaddr self
  /\ is_Some (Sender.mysocket self').
Proof.
  unfold Sender.create_socket, mbind, Sender.os, mget, Sender.self_set,
    Sender.self_get, mret.
  destruct (Sender.syscall _ w) as [[[]|e] w1] eqn:H1;
    cbv beta iota zeta; [|discriminate].
  apply syscall_ok in H1.
  destruct (Sender.is_multicast _).
  - unfold Sender.setsockopt, Sender.os, mraise.
    destruct (_ || _); [discriminate|].
    destruct (Sender.syscall _ w1) as [[[]|e] w2] eqn:H2;
      cbv beta iota zeta; [|discriminate].
    apply syscall_ok in H2. intros [= <- <-].
    rewrite (datagrams_snoc _ _ _ H2), (datagrams_snoc _ _ _ H1).
    rewrite !app_nil_r. cbn [Sender.set_mysocket Sender.dstaddr
                              Sender.mysocket]. eauto.
  - intros [= <- <-]. rewrite (datagrams_snoc _ _ _ H1).
    rewrite app_nil_r. cbn [Sender.set_mysocket Sender.dstaddr
                             Sender.mysocket]. eauto.
Qed.

(** A datagram that was sent is the last one of the trace. *)
Lemma sendto_ok buf self w self' w' :
  Sender.sendto buf (self, w) = (Ok tt, (self', w')) ->
  self' = self
  /\ Sender.datagrams w' = Sender.datagrams w ++ [(buf, Sender.dstaddr self)].
Proof.
  unfold Sender.sendto, mbind, Sender.self_get, Sender.os, mraise.
  destruct (Sender.mysocket self) as [fd|]; [|discriminate].
  destruct (Sender.syscall _ w) as [[[]|e] w1] eqn:H1;
    cbv beta iota zeta; [|discriminate].
  apply syscall_ok in H1. intros [= <- <-].
  by rewrite (datagrams_snoc _ _ _ H1).
Qed.

(** One successful [send]. *)
Lemma send_ok E (g : Gmetric.obj) self w self' w' :
  Sender.send E (Sender.Instance g) (self, w) = (Ok tt, (self', w')) ->
  exists mbuf vbuf,
    Gmetric.get_metabuf g = Ok mbuf
    /\ Gmetric.get_valuebuf E g = Ok vbuf
    /\ Sender.datagrams w'
       = Sender.datagrams w
         ++ [(mbuf, Sender.dstaddr self); (vbuf, Sender.dstaddr self)]
    /\ Sender.dstaddr self' = Sender.dstaddr self.
Proof.
  intros H. unfold Sender.send in H.
  apply mbind_inv in H as (hb & st & H1 & H). apply mlift_inv in H1 as [_ ->].
  apply mbind_inv in H as (c & st & H1 & H). apply mlift_inv in H1 as [_ ->].
  destruct (Py.truthy c); [discriminate H|].
  apply mbind_inv in H as (mbuf & st & Hm & H). apply mlift_inv in Hm as [Hm ->].
  apply mbind_inv in H as (vbuf & st & Hv & H). apply mlift_inv in Hv as [Hv ->].
  apply mbind_inv in H as (self0 & st & H1 & H).
  injection H1 as <- <-.
  apply mbind_inv in H as ([] & [self1 w1] & Hopen & H).
  apply mbind_inv in H as ([] & [self2 w2] & Hs1 & Hs2).
  apply sendto_ok in Hs1 as [-> Hd1]. apply sendto_ok in Hs2 as [<- Hd2].
  exists mbuf, vbuf. do 2 (split; [done|]).
  destruct (negb _).
  - apply create_socket_ok in Hopen as (Hd0 & Ha & _).
    by rewrite Hd2, Hd1, Hd0, Ha, <- app_assoc.
  - injection Hopen as <- <-.
    by rewrite Hd2, Hd1, <- app_assoc.
Qed.

(** C6.  When [gm_spoof_heartbeat] is true and [gm_spoof_host] is unset
    ([None], or any value that tests false), [send] raises the
    [ValueError] of the spoof check and returns the sender and the world
    as they were: no socket is created, no datagram is sent. *)
Theorem send_heartbeat_needs_spoof_host E (g : Gmetric.obj) sh self w :
  g !! "gm_spoof_heartbeat" = Some (VBool true) ->
  g !! "gm_spoof_host" = Some sh ->
  Py.truthy sh = false ->
  Sender.send E (Sender.Instance g) (self, w)
  = (Raise (ValueError "spoof-heatbeat needs spoof-host"), (self, w)).
Proof.
  intros Hhb Hsh Hfalse. unfold Sender.send.
  erewrite mbind_ok
    by (unfold mlift, Gmetric.getattr; rewrite Hhb; reflexivity).
  erewrite mbind_ok
    by (unfold mlift, Gmetric.getattr, Py.and_; rewrite Hsh;
        cbn [Py.truthy rbind]; rewrite Hfalse; reflexivity).
  reflexivity.
Qed.

Lemma send_heartbeat_needs_spoof_host_witness :
  Sender.send Examples.E0 (Sender.Instance Examples.lone_heartbeat)
    (Examples.sender0, Examples.world0)
  = (Raise (ValueError "spoof-heatbeat needs spoof-host"),
     (Examples.sender0, Examples.world0)).
Proof.
  apply (send_heartbeat_needs_spoof_host Examples.E0 Examples.lone_heartbeat
           VNone).
  - vm_compute. reflexivity.
  - vm_compute. reflexivity.
  - reflexivity.
Defined.

(** C7.  The constructor refuses a port below 1 or above 65535 with the
    [ValueError] of the port check and leaves the world untouched; for a
    port from 1 to 65535 the check passes and the outcome is that of
    resolving the host.  The constructor itself never opens a socket. *)
Theorem port_range_checked E dsthost dstport ttl w :
  (dstport < 1 \/ 65535 < dstport ->
   Sender.__init__ E dsthost dstport ttl w = (Raise (ValueError ""), w))
  /\ (1 <= dstport <= 65535 ->
      Sender.__init__ E dsthost dstport ttl w
      = (match gethostbyname E dsthost with
         | Some a => Ok {| Sender.dstaddr := (a, dstport);
                           Sender.ttl := ttl;
                           Sender.mysocket := None |}
         | None => Raise OSError
         end, w)).
Proof.
  unfold Sender.__init__. split; intros Hport.
  - destruct (Z.leb_spec dstport 0), (Z.geb_spec dstport 65536);
      try reflexivity; lia.
  - destruct (Z.leb_spec dstport 0), (Z.geb_spec dstport 65536); try lia.
    cbn [orb]. by destruct (gethostbyname E dsthost).
Qed.

Lemma port_range_checked_witness :
  Sender.__init__ Examples.E0 (lit "127.0.0.1") 0 1 Examples.world0
  = (Raise (ValueError ""), Examples.world0)
  /\ Sender.__init__ Examples.E0 (lit "127.0.0.1") 70000 1 Examples.world0
     = (Raise (ValueError ""), Examples.world0)
  /\ Sender.__init__ Examples.E0 (lit "127.0.0.1") 8649 1 Examples.world0
     = (Ok Examples.sender0, Examples.world0).
Proof.
  split; [|split].
  - apply (port_range_checked Examples.E0 (lit "127.0.0.1") 0 1). lia.
  - apply (port_range_checked Examples.E0 (lit "127.0.0.1") 70000 1). lia.
  - apply (port_range_checked Examples.E0 (lit "127.0.0.1") 8649 1). lia.
Defined.

(** C9.  A [send] that returns normally has appended exactly two
    datagrams to those already sent, the metadata buffer and then the
    value buffer of the metric, both to the destination of the sender;
    two such sends in a row append four, in the order metadata, value,
    metadata, value. *)
Theorem send_two_datagrams E :
  (forall (g : Gmetric.obj) st st1,
      Sender.send E (Sender.Instance g) st = (Ok tt, st1) ->
      exists mbuf vbuf,
        Gmetric.get_metabuf g = Ok mbuf
        /\ Gmetric.get_valuebuf E g = Ok vbuf
        /\ Sender.datagrams (snd st1)
           = Sender.datagrams (snd st)
             ++ [(mbuf, Sender.dstaddr (fst st));
                 (vbuf, Sender.dstaddr (fst st))])
  /\ (forall (g1 g2 : Gmetric.obj) st st1 st2,
         Sender.send E (Sender.Instance g1) st = (Ok tt, st1) ->
         Sender.send E (Sender.Instance g2) st1 = (Ok tt, st2) ->
         exists mbuf1 vbuf1 mbuf2 vbuf2,
           Gmetric.get_metabuf g1 = Ok mbuf1
           /\ Gmetric.get_valuebuf E g1 = Ok vbuf1
           /\ Gmetric.get_metabuf g2 = Ok mbuf2
           /\ Gmetric.get_valuebuf E g2 = Ok vbuf2
           /\ Sender.datagrams (snd st2)
              = Sender.datagrams (snd st)
                ++ [(mbuf1, Sender.dstaddr (fst st));
                    (vbuf1, Sender.dstaddr (fst st));
                    (mbuf2, Sender.dstaddr (fst st));
                    (vbuf2, Sender.dstaddr (fst st))]).
Proof.
  split.
  - intros g [self w] [self1 w1] H.
    apply send_ok in H as (mbuf & vbuf & Hm & Hv & Hd & _). eauto.
  - intros g1 g2 [self w] [self1 w1] [self2 w2] H1 H2.
    apply send_ok in H1 as (mbuf1 & vbuf1 & Hm1 & Hv1 & Hd1 & Ha1).
    apply send_ok in H2 as (mbuf2 & vbuf2 & Hm2 & Hv2 & Hd2 & _).
    exists mbuf1, vbuf1, mbuf2, vbuf2. do 4 (split; [done|]).
    cbn [fst snd]. by rewrite Hd2, Hd1, Ha1, <- app_assoc.
Qed.

Lemma send_two_datagrams_witness :
  exists mbuf1 vbuf1 mbuf2 vbuf2,
    Gmetric.get_metabuf Examples.gtemp = Ok mbuf1
    /\ Gmetric.get_valuebuf Examples.E0 Examples.gtemp = Ok vbuf1
    /\ Gmetric.get_metabuf Examples.gvol = Ok mbuf2
    /\ Gmetric.get_valuebuf Examples.E0 Examples.gvol = Ok vbuf2
    /\ Sender.datagrams (snd Examples.after_gvol)
       = Sender.datagrams (snd (Examples.sender0, Examples.world0))
         ++ [(mbuf1, Sender.dstaddr (fst (Examples.sender0, Examples.world0)));
             (vbuf1, Sender.dstaddr (fst (Examples.sender0, Examples.world0)));
             (mbuf2, Sender.dstaddr (fst (Examples.sender0, Examples.world0)));
             (vbuf2, Sender.dstaddr (fst (Examples.sender0, Examples.world0)))].
Proof.
  apply (proj2 (send_two_datagrams Examples.E0) Examples.gtemp Examples.gvol
           (Examples.sender0, Examples.world0) Examples.after_gtemp
           Examples.after_gvol).
  - vm_compute. reflexivity.
  - vm_compute. reflexivity.
Defined.

(** * Further properties of the module *)

(** ** The enumerations *)

Lemma first_member_outcome {A} (test : A -> bool) members prefix strval :
  (exists x, In x members /\ test x = true
             /\ first_member test members prefix strval = Member x)
  \/ ((forall x, In x members -> test x = false)
      /\ first_member test members prefix strval = Unsupported prefix strval).
Proof.
  induction members as [|x rest IH]; [right; split; [intros ? []|done]|].
  cbn [first_member]. destruct (test x) eqn:Hx.
  - left. exists x. split; [by left|done].
  - destruct IH as [(y & Hin & Hy & ->)|[Hall ->]].
    + left. exists y. split; [by right|done].
    + right. split; [|done]. intros y [<-|Hin]; [done|by apply Hall].
Qed.

(** X1.  [TypeEnum.from_str] inverts [.value]: it returns a member
    exactly for the string that is the value of that member, and for
    every other string it raises the [ValueError] that carries the
    string. *)
Theorem TypeEnum_from_str_value :
  (forall t, TypeEnum_from_str (TypeEnum_value t) = Member t)
  /\ (forall strval t,
         TypeEnum_from_str strval = Member t -> strval = TypeEnum_value t)
  /\ (forall strval,
         (forall t, strval <> TypeEnum_value t) ->
         TypeEnum_from_str strval
         = Unsupported "unsupported Type: %s" strval).
Proof.
  split; [|split].
  - intros t. destruct t; vm_compute; reflexivity.
  - intros strval t. unfold TypeEnum_from_str.
    destruct (first_member_outcome
                (fun etype => bool_decide (strval = TypeEnum_value etype))
                TypeEnum_members "unsupported Type: %s" strval)
      as [(x & _ & Hx & ->)|[_ ->]]; [|discriminate].
    intros [= <-]. by apply bool_decide_eq_true in Hx.
  - intros strval Hno. unfold TypeEnum_from_str.
    destruct (first_member_outcome
                (fun etype => bool_decide (strval = TypeEnum_value etype))
                TypeEnum_members "unsupported Type: %s" strval)
      as [(x & _ & Hx & _)|[_ ->]]; [|done].
    apply bool_decide_eq_true in Hx. by destruct (Hno x).
Qed.

Lemma TypeEnum_from_str_value_witness :
  TypeEnum_from_str (lit "uint32") = Member UINT32
  /\ TypeEnum_from_str (lit "int9")
     = Unsupported "unsupported Type: %s" (lit "int9").
Proof.
  destruct TypeEnum_from_str_value as (Hval & _ & Hno).
  split.
  - apply (Hval UINT32).
  - apply Hno. intros t. destruct t; vm_compute; discriminate.
Defined.

Lemma SlopeEnum_name_inj s1 s2 :
  SlopeEnum_name s1 = SlopeEnum_name s2 -> s1 = s2.
Proof. destruct s1, s2; vm_compute; intros H; (reflexivity || discriminate H). Qed.

(** X2.  [SlopeEnum.from_str] looks the argument up by its upper-cased
    form: it returns the member whose name is [strval.upper()], so the
    case of the argument does not matter, and when no member has that
    name it raises the [ValueError] that carries the argument as it was
    given. *)
Theorem SlopeEnum_from_str_name (upper : str -> str) (strval : str) :
  (forall s, upper strval = SlopeEnum_name s ->
             SlopeEnum_from_str upper strval = Member s)
  /\ ((forall s, upper strval <> SlopeEnum_name s) ->
      SlopeEnum_from_str upper strval
      = Unsupported "unsupported Slope: %s" strval).
Proof.
  unfold SlopeEnum_from_str.
  destruct (first_member_outcome
              (fun slope => bool_decide (SlopeEnum_name slope = upper strval))
              SlopeEnum_members "unsupported Slope: %s" strval)
    as [(x & _ & Hx & ->)|[Hall ->]].
  - apply bool_decide_eq_true in Hx. split.
    + intros s Hs. f_equal. apply SlopeEnum_name_inj. congruence.
    + intros Hno. by destruct (Hno x).
  - split; [|done]. intros s Hs.
    assert (Hin : In s SlopeEnum_members) by (destruct s; simpl; tauto).
    apply Hall in Hin. apply bool_decide_eq_false in Hin. by destruct Hin.
Qed.

Lemma SlopeEnum_from_str_name_witness :
  SlopeEnum_from_str ascii_upper (lit "Both") = Member BOTH
  /\ SlopeEnum_from_str ascii_upper (lit "steep")
     = Unsupported "unsupported Slope: %s" (lit "steep").
Proof.
  split.
  - apply (proj1 (SlopeEnum_from_str_name ascii_upper (lit "Both")) BOTH).
    vm_compute. reflexivity.
  - apply (proj2 (SlopeEnum_from_str_name ascii_upper (lit "steep"))).
    intros s. destruct s; vm_compute; discriminate.
Defined.

(** ** The command line *)

Lemma split_nonempty sep s : Main.split sep s <> [].
Proof.
  destruct s as [|c s]; [done|]. cbn [Main.split].
  destruct (c =? sep); [done|]. by destruct (Main.split sep s).
Qed.

Lemma join_cons_cons sep c piece rest :
  Main.join sep ((c :: piece) :: rest) = c :: Main.join sep (piece :: rest).
Proof. by destruct rest. Qed.

(** X3.  [gmetricgroups] loses nothing: it always returns at least one
    group, no group contains a comma, and joining the groups with commas
    gives the argument back; the number of groups is the number of
    commas plus one. *)
Theorem gmetricgroups_join (val : str) :
  Main.join Main.comma (Main.gmetricgroups val) = val
  /\ Forall (fun piece => ~ In Main.comma piece) (Main.gmetricgroups val)
  /\ length (Main.gmetricgroups val)
     = S (length (filter (fun c => c = Main.comma) val)).
Proof.
  unfold Main.gmetricgroups. induction val as [|c s (IHj & IHf & IHl)].
  - split; [done|]. split; [|done]. constructor; [intros []|constructor].
  - cbn [Main.split]. destruct (Z.eqb_spec c Main.comma) as [->|Hne].
    + split; [|split].
      * pose proof (split_nonempty Main.comma s).
        destruct (Main.split Main.comma s) as [|piece rest] eqn:Hs; [done|].
        change (Main.join Main.comma ([] :: piece :: rest))
          with (Main.comma :: Main.join Main.comma (piece :: rest)).
        by rewrite IHj.
      * constructor; [intros []|done].
      * rewrite filter_cons_True by done. cbn [length]. by rewrite IHl.
    + pose proof (split_nonempty Main.comma s).
      destruct (Main.split Main.comma s) as [|piece rest] eqn:Hs; [done|].
      split; [|split].
      * rewrite join_cons_cons. by rewrite IHj.
      * inversion IHf as [|? ? Hp Hr]; subst.
        constructor; [|done]. intros [->|Hin]; [done|by apply Hp].
      * rewrite filter_cons_False by done. exact IHl.
Qed.

(** ** Assignment: what is stored, what is refused *)

(** The two exits of an assignment. *)
Lemma __setattr___runs E name val (g : Gmetric.obj) :
  (exists e, Gmetric.__setattr__ E name val g = (Raise e, g))
  \/ (~ In name ["__class__"; "__dict__"; "__weakref__"]%string
      /\ Gmetric.__setattr__ E name val g = (Ok tt, <[name := val]> g)).
Proof.
  assert (Hstore :
            (exists e, Gmetric.object_setattr name val g = (Raise e, g))
            \/ (~ In name ["__class__"; "__dict__"; "__weakref__"]%string
                /\ Gmetric.object_setattr name val g
                   = (Ok tt, <[name := val]> g))).
  { unfold Gmetric.object_setattr, mraise, mmodify.
    destruct (String.eqb_spec name "__class__") as [->|H1]; [eauto|].
    destruct (String.eqb_spec name "__dict__") as [->|H2]; [eauto|].
    destruct (String.eqb_spec name "__weakref__") as [->|H3]; [eauto|].
    right. split; [|reflexivity].
    intros [<-|[<-|[<-|[]]]]; congruence. }
  unfold Gmetric.__setattr__, mbind, mlift, mret.
  destruct (Py.startswith "gv_" name).
  - destruct (Gmetric.__check_gv_var__ _ _ _) as [[]|e]; eauto.
  - destruct (Py.startswith "gm_" name).
    + destruct (Gmetric.__check_gm_var__ _ _) as [[]|e]; eauto.
    + exact Hstore.
Qed.

(** X4.  An assignment either raises and leaves the instance dictionary
    exactly as it was, or returns and changes the entry of the assigned
    name only: that entry holds the value, every other entry is what it
    was.  The names [__class__], [__dict__] and [__weakref__], which
    [object] does not keep in the dictionary, are always on the first
    side: with a value of the modelled universe the assignment raises. *)
Theorem __setattr___frame E name val (g : Gmetric.obj) :
  (exists e, Gmetric.__setattr__ E name val g = (Raise e, g))
  \/ (~ In name ["__class__"; "__dict__"; "__weakref__"]%string
      /\ Gmetric.__setattr__ E name val g = (Ok tt, <[name := val]> g)
      /\ snd (Gmetric.__setattr__ E name val g) !! name = Some val
      /\ forall other,
           other <> name ->
           snd (Gmetric.__setattr__ E name val g) !! other = g !! other).
Proof.
  destruct (__setattr___runs E name val g) as [He|[Hname Hrun]];
    [by left|right].
  rewrite Hrun. cbn [snd]. do 2 (split; [done|]).
  split; [by rewrite lookup_insert_eq|].
  intros other Hne. by rewrite lookup_insert_ne.
Qed.

Lemma __setattr___frame_witness :
  snd (Gmetric.__setattr__ Examples.E0 "gv_units" (VStr (lit "Celsius"))
         Examples.fresh) !! "gv_units"
  = Some (VStr (lit "Celsius"))
  /\ snd (Gmetric.__setattr__ Examples.E0 "gv_units" (VStr (lit "Celsius"))
            Examples.fresh) !! "gv_tmax"
     = Examples.fresh !! "gv_tmax"
  /\ exists e,
       Gmetric.__setattr__ Examples.E0 "__dict__" (VInt 0) Examples.fresh
       = (Raise e, Examples.fresh).
Proof.
  split; [|split].
  - destruct (__setattr___frame Examples.E0 "gv_units"
                (VStr (lit "Celsius")) Examples.fresh)
      as [[e He]|(_ & _ & Hread & _)]; [|exact Hread].
    assert (Hok : fst (Gmetric.__setattr__ Examples.E0 "gv_units"
                         (VStr (lit "Celsius")) Examples.fresh) = Ok tt)
      by (vm_compute; reflexivity).
    rewrite He in Hok. discriminate Hok.
  - destruct (__setattr___frame Examples.E0 "gv_units"
                (VStr (lit "Celsius")) Examples.fresh)
      as [[e He]|(_ & _ & _ & Hframe)]; [|by apply Hframe].
    assert (Hok : fst (Gmetric.__setattr__ Examples.E0 "gv_units"
                         (VStr (lit "Celsius")) Examples.fresh) = Ok tt)
      by (vm_compute; reflexivity).
    rewrite He in Hok. discriminate Hok.
  - destruct (__setattr___frame Examples.E0 "__dict__" (VInt 0)
                Examples.fresh) as [He|(Hname & _)]; [exact He|].
    exfalso. apply Hname. right. by left.
Defined.

(** The checks, branch by branch. *)

Lemma existsb_quot_iff s :
  existsb (Z.eqb Gmetric.quot) s = true <-> In Gmetric.quot s.
Proof.
  rewrite existsb_exists. split.
  - intros (c & Hin & Hc). apply Z.eqb_eq in Hc. by subst.
  - intros Hin. exists Gmetric.quot. split; [done|apply Z.eqb_refl].
Qed.

Lemma quote_test_str s :
  (q <- Gmetric.__check_containing_quot__ (VStr s) ;
   if Py.truthy q then Raise (ValueError "") else Ok tt)%result
  = if existsb (Z.eqb Gmetric.quot) s then Raise (ValueError "") else Ok tt.
Proof. by destruct s as [|c s]. Qed.

Lemma __check_gv_var___str E gvname val :
  In gvname ["name"; "value"; "units"]%string ->
  Gmetric.__check_gv_var__ E gvname val
  = match val with
    | VStr s => if existsb (Z.eqb Gmetric.quot) s
                then Raise (ValueError "") else Ok tt
    | _ => Raise (ValueError "")
    end.
Proof.
  intros [<-|[<-|[<-|[]]]]; destruct val; try reflexivity;
    apply quote_test_str.
Qed.

Lemma __check_gm_var___str gmname val :
  In gmname ["cluster"; "desc"; "title"]%string ->
  Gmetric.__check_gm_var__ gmname val
  = match val with
    | VNone => Ok tt
    | VStr s => if existsb (Z.eqb Gmetric.quot) s
                then Raise (ValueError "") else Ok tt
    | _ => Raise (ValueError "")
    end.
Proof.
  intros [<-|[<-|[<-|[]]]]; destruct val as [| | |s| | | |]; try reflexivity;
    by destruct s.
Qed.

Lemma __check_gv_var___int E gvname val :
  In gvname ["tmax"; "dmax"]%string ->
  Gmetric.__check_gv_var__ E gvname val
  = (n <- Py.int E val ;
     if n <? 0 then Raise (ValueError "") else Ok tt)%result.
Proof. by intros [<-|[<-|[]]]. Qed.

Lemma __check_gm_var___group val :
  Gmetric.__check_gm_var__ "group" val
  = match val with
    | VNone => Ok tt
    | VList l => Gmetric.check_group_items l
    | VTuple l => Gmetric.check_group_items l
    | _ => Raise (ValueError "")
    end.
Proof. by destruct val. Qed.

Lemma check_group_items_quote_free l :
  Gmetric.check_group_items l = Ok tt ->
  forall s, In (VStr s) l -> quote_free s.
Proof.
  induction l as [|x l IH]; intros H s Hin; [destruct Hin|].
  cbn [Gmetric.check_group_items] in H.
  destruct (Gmetric.__check_containing_quot__ x) as [q|] eqn:Hq;
    [|discriminate].
  cbn [rbind] in H. destruct (Py.truthy q) eqn:Hq'; [discriminate|].
  destruct Hin as [->|Hin]; [|by apply IH].
  destruct (__check_containing_quot___str s) as (q' & Hq'' & Hfree).
  rewrite Hq in Hq''. injection Hq'' as <-. by apply Hfree.
Qed.

(** A check that returns tells what the value is. *)
Lemma __setattr___field_ok E name val (g g' : Gmetric.obj) :
  Gmetric.__setattr__ E name val g = (Ok tt, g') ->
  g' = <[name := val]> g /\ field_ok E name val.
Proof.
  intros H.
  destruct (__setattr___runs E name val g) as [[e He]|(_ & Hrun)];
    [congruence|].
  split; [congruence|]. clear Hrun. unfold field_ok.
  destruct (String.eqb_spec name "gv_name") as [->|_];
  [|destruct (String.eqb_spec name "gv_value") as [->|_];
  [|destruct (String.eqb_spec name "gv_units") as [->|_]]].
  1-3: cbn [orb];
       match type of H with
       | Gmetric.__setattr__ _ ?n _ _ = _ =>
           rewrite (__setattr___gv E n val g _ eq_refl eq_refl) in H
       end;
       cbn [Py.remove_first String.prefix] in H;
       (rewrite __check_gv_var___str in H by (simpl; tauto));
       destruct val as [| | |s| | | |]; try discriminate H;
       destruct (existsb _ s) eqn:Hs; [discriminate H|];
       exists s; split; [done|]; intros Hin;
       apply existsb_quot_iff in Hin; congruence.
  cbn [orb].
  destruct (String.eqb_spec name "gv_type") as [->|_].
  { rewrite (__setattr___gv E "gv_type" val g _ eq_refl eq_refl) in H.
    destruct val; try discriminate H. eauto. }
  destruct (String.eqb_spec name "gv_slope") as [->|_].
  { rewrite (__setattr___gv E "gv_slope" val g _ eq_refl eq_refl) in H.
    destruct val; try discriminate H. eauto. }
  destruct (String.eqb_spec name "gv_tmax") as [->|_];
  [|destruct (String.eqb_spec name "gv_dmax") as [->|_]].
  1-2: cbn [orb];
       match type of H with
       | Gmetric.__setattr__ _ ?n _ _ = _ =>
           rewrite (__setattr___gv E n val g _ eq_refl eq_refl) in H
       end;
       cbn [Py.remove_first String.prefix] in H;
       (rewrite __check_gv_var___int in H by (simpl; tauto));
       destruct (Py.int E val) as [n|]; [|discriminate H];
       cbn [rbind] in H; destruct (Z.ltb_spec n 0); [discriminate H|];
       eauto.
  cbn [orb].
  destruct (String.eqb_spec name "gm_cluster") as [->|_];
  [|destruct (String.eqb_spec name "gm_desc") as [->|_];
  [|destruct (String.eqb_spec name "gm_title") as [->|_]]].
  1-3: cbn [orb];
       match type of H with
       | Gmetric.__setattr__ _ ?n _ _ = _ =>
           rewrite (__setattr___gm E n val g _ eq_refl eq_refl eq_refl) in H
       end;
       cbn [Py.remove_first String.prefix] in H;
       (rewrite __check_gm_var___str in H by (simpl; tauto));
       destruct val as [| | |s| | | |]; try discriminate H; [by left|];
       destruct (existsb _ s) eqn:Hs; [discriminate H|];
       right; exists s; split; [done|]; intros Hin;
       apply existsb_quot_iff in Hin; congruence.
  cbn [orb].
  destruct (String.eqb_spec name "gm_group") as [->|_].
  { rewrite (__setattr___gm E "gm_group" val g _ eq_refl eq_refl eq_refl)
      in H.
    cbn [Py.remove_first String.prefix] in H.
    change (String.substring _ _ "gm_group") with "group"%string in H.
    rewrite __check_gm_var___group in H.
    destruct val as [| | | |l|l| |]; try discriminate H; [by left|..];
      right; exists l; (split; [tauto|]);
      apply check_group_items_quote_free;
      by destruct (Gmetric.check_group_items l) as [[]|]. }
  destruct (String.eqb_spec name "gm_spoof_heartbeat") as [->|_]; [|done].
  rewrite (__setattr___gm E "gm_spoof_heartbeat" val g _
             eq_refl eq_refl eq_refl) in H.
  destruct val; try discriminate H. eauto.
Qed.

Lemma validated_step E name val (g g' : Gmetric.obj) :
  validated E g ->
  Gmetric.__setattr__ E name val g = (Ok tt, g') ->
  validated E g'.
Proof.
  intros Hv H. apply __setattr___field_ok in H as [-> Hok].
  intros name' v. destruct (decide (name = name')) as [<-|Hne].
  - rewrite lookup_insert_eq. by intros [= <-].
  - rewrite lookup_insert_ne by done. apply Hv.
Qed.

Lemma __init___run E :
  Gmetric.new E
  = (Ok tt,
     <["gm_spoof_heartbeat" := VBool false]>
     (<["gm_spoof_host" := VNone]>
     (<["gm_title" := VNone]>
     (<["gm_desc" := VNone]>
     (<["gm_group" := VNone]>
     (<["gm_cluster" := VNone]>
     (<["gv_dmax" := VInt 0]>
     (<["gv_tmax" := VInt 60]>
     (<["gv_slope" := VSlope BOTH]>
     (<["gv_units" := VStr []]>
     (<["gv_type" := VType STRING]>
     (<["gv_value" := VStr []]>
     (<["gv_name" := VStr []]>
     (<[Gmetric.myhost_attr := VStr (gethostname E)]> ∅)))))))))))))).
Proof. reflexivity. Qed.

(** X5.  Validation is an invariant of the instance.  [Gmetric()] never
    raises and yields an instance in which every attribute satisfies
    its check; any assignment that returns, whatever the name and the
    value, keeps it so, and so does [set_heartbeat()].  In such an
    instance the names, values and units are strings without a double
    quote, the type and the slope are members of their enumerations,
    tmax and dmax convert to a non-negative integer, the optional
    strings are [None] or strings without a double quote, the strings of
    a group have no double quote, and the heartbeat flag is a
    boolean. *)
Theorem validated_invariant E :
  (fst (Gmetric.new E) = Ok tt /\ validated E (snd (Gmetric.new E)))
  /\ (forall name val (g g' : Gmetric.obj),
         validated E g ->
         Gmetric.__setattr__ E name val g = (Ok tt, g') ->
         validated E g')
  /\ (forall g : Gmetric.obj,
         validated E g ->
         fst (Gmetric.set_heartbeat E g) = Ok tt
         /\ validated E (snd (Gmetric.set_heartbeat E g))).
Proof.
  split; [|split].
  - split; [by rewrite __init___run|].
    destruct (Gmetric.new E) as [r g] eqn:H.
    assert (r = Ok tt) as -> by (rewrite __init___run in H; congruence).
    assert (Hv : validated E (∅ : Gmetric.obj)) by (intros name v; by rewrite lookup_empty).
    unfold Gmetric.new, Gmetric.__init__ in H. cbn [snd].
    repeat (apply mbind_inv in H as ([] & ? & Hs & H);
            pose proof (validated_step _ _ _ _ _ Hv Hs) as Hv';
            clear Hv Hs; rename Hv' into Hv).
    by apply (validated_step _ _ _ _ _ Hv H).
  - intros name val g g'. apply validated_step.
  - intros g Hv. split; [by rewrite set_heartbeat_run|].
    destruct (Gmetric.set_heartbeat E g) as [r g'] eqn:H.
    assert (r = Ok tt) as -> by (rewrite set_heartbeat_run in H; congruence).
    unfold Gmetric.set_heartbeat in H. cbn [snd].
    repeat (apply mbind_inv in H as ([] & ? & Hs & H);
            pose proof (validated_step _ _ _ _ _ Hv Hs) as Hv';
            clear Hv Hs; rename Hv' into Hv).
    by apply (validated_step _ _ _ _ _ Hv H).
Qed.

Lemma validated_invariant_witness :
  validated Examples.E0 (<["gv_tmax" := VInt 30]> Examples.fresh)
  /\ validated Examples.E0 Examples.lone_heartbeat.
Proof.
  destruct (validated_invariant Examples.E0) as ([_ Hnew] & Hstep & Hbeat).
  split.
  - apply (Hstep "gv_tmax" (VInt 30) Examples.fresh); [exact Hnew|].
    destruct (__setattr___runs Examples.E0 "gv_tmax" (VInt 30)
                Examples.fresh) as [[e He]|[_ Hrun]]; [|exact Hrun].
    assert (Hok : fst (Gmetric.__setattr__ Examples.E0 "gv_tmax" (VInt 30)
                         Examples.fresh) = Ok tt)
      by (vm_compute; reflexivity).
    rewrite He in Hok. discriminate Hok.
  - apply (Hbeat Examples.fresh). exact Hnew.
Defined.

(** X6.  [gv_tmax] and [gv_dmax] refuse a negative integer with
    [ValueError], leaving the instance as it was, and store every
    integer from zero up: the check has a lower bound and no upper
    bound. *)
Theorem tmax_dmax_sign E attr n (g : Gmetric.obj) :
  In attr ["gv_tmax"; "gv_dmax"]%string ->
  (n < 0 ->
   Gmetric.__setattr__ E attr (VInt n) g = (Raise (ValueError ""), g))
  /\ (0 <= n ->
      Gmetric.__setattr__ E attr (VInt n) g
      = (Ok tt, <[attr := VInt n]> g)).
Proof.
  intros [<-|[<-|[]]]; split; intros Hn.
  all: match goal with
       | |- Gmetric.__setattr__ _ ?a _ _ = _ =>
           rewrite (__setattr___gv E a (VInt n) g _ eq_refl eq_refl)
       end;
       cbn [Py.remove_first String.prefix];
       (rewrite __check_gv_var___int by (simpl; tauto));
       cbn [Py.int rbind]; destruct (Z.ltb_spec n 0); (reflexivity || lia).
Qed.

Lemma tmax_dmax_sign_witness :
  Gmetric.__setattr__ Examples.E0 "gv_tmax" (VInt (-1)) Examples.fresh
  = (Raise (ValueError ""), Examples.fresh)
  /\ Gmetric.__setattr__ Examples.E0 "gv_dmax" (VInt (2 ^ 40)) Examples.fresh
     = (Ok tt, <["gv_dmax" := VInt (2 ^ 40)]> Examples.fresh).
Proof.
  split.
  - apply (tmax_dmax_sign Examples.E0 "gv_tmax" (-1) Examples.fresh).
    + left. reflexivity.
    + lia.
  - apply (tmax_dmax_sign Examples.E0 "gv_dmax" (2 ^ 40) Examples.fresh).
    + right. left. reflexivity.
    + lia.
Defined.

(** X7.  A value of the wrong Python type is refused with [ValueError]
    and the instance is left as it was: anything but a string for
    [gv_name], [gv_value], [gv_units] ([None] included); anything but a
    string or [None] for [gm_cluster], [gm_desc], [gm_title]; anything
    but a list, a tuple or [None] for [gm_group]; anything but a boolean
    for [gm_spoof_heartbeat]. *)
Theorem wrong_type_rejected E val (g : Gmetric.obj) :
  (Py.is_str val = false ->
   forall attr, In attr ["gv_name"; "gv_value"; "gv_units"]%string ->
     Gmetric.__setattr__ E attr val g = (Raise (ValueError ""), g))
  /\ (Py.is_str val = false -> val <> VNone ->
      forall attr, In attr ["gm_cluster"; "gm_desc"; "gm_title"]%string ->
        Gmetric.__setattr__ E attr val g = (Raise (ValueError ""), g))
  /\ (Py.is_list val = false -> Py.is_tuple val = false -> val <> VNone ->
      Gmetric.__setattr__ E "gm_group" val g = (Raise (ValueError ""), g))
  /\ (Py.is_bool val = false ->
      Gmetric.__setattr__ E "gm_spoof_heartbeat" val g
      = (Raise (ValueError ""), g)).
Proof.
  split; [|split; [|split]].
  - intros Hs attr [<-|[<-|[<-|[]]]].
    all: match goal with
         | |- Gmetric.__setattr__ _ ?a _ _ = _ =>
             rewrite (__setattr___gv E a val g _ eq_refl eq_refl)
         end;
         cbn [Py.remove_first String.prefix];
         (rewrite __check_gv_var___str by (simpl; tauto));
         by destruct val.
  - intros Hs Hn attr [<-|[<-|[<-|[]]]].
    all: match goal with
         | |- Gmetric.__setattr__ _ ?a _ _ = _ =>
             rewrite (__setattr___gm E a val g _ eq_refl eq_refl eq_refl)
         end;
         cbn [Py.remove_first String.prefix];
         (rewrite __check_gm_var___str by (simpl; tauto));
         by destruct val.
  - intros Hl Ht Hn.
    rewrite (__setattr___gm E "gm_group" val g _ eq_refl eq_refl eq_refl).
    change (Py.remove_first "gm_" "gm_group") with "group"%string.
    rewrite __check_gm_var___group. by destruct val.
  - intros Hb.
    rewrite (__setattr___gm E "gm_spoof_heartbeat" val g _
               eq_refl eq_refl eq_refl).
    by destruct val.
Qed.

Lemma wrong_type_rejected_witness :
  Gmetric.__setattr__ Examples.E0 "gv_name" VNone Examples.fresh
  = (Raise (ValueError ""), Examples.fresh)
  /\ Gmetric.__setattr__ Examples.E0 "gm_title" (VInt 7) Examples.fresh
     = (Raise (ValueError ""), Examples.fresh)
  /\ Gmetric.__setattr__ Examples.E0 "gm_group" (VStr (lit "power"))
       Examples.fresh
     = (Raise (ValueError ""), Examples.fresh)
  /\ Gmetric.__setattr__ Examples.E0 "gm_spoof_heartbeat" (VInt 1)
       Examples.fresh
     = (Raise (ValueError ""), Examples.fresh).
Proof.
  split; [|split; [|split]].
  - apply (proj1 (wrong_type_rejected Examples.E0 VNone Examples.fresh)).
    + reflexivity.
    + left. reflexivity.
  - apply (proj1 (proj2 (wrong_type_rejected Examples.E0 (VInt 7)
                           Examples.fresh))).
    + reflexivity.
    + discriminate.
    + right. right. left. reflexivity.
  - apply (proj1 (proj2 (proj2 (wrong_type_rejected Examples.E0
                                  (VStr (lit "power")) Examples.fresh)))).
    + reflexivity.
    + reflexivity.
    + discriminate.
  - apply (proj2 (proj2 (proj2 (wrong_type_rejected Examples.E0 (VInt 1)
                                  Examples.fresh)))).
    reflexivity.
Defined.

(** ** The heartbeat transform, again *)

(** X8.  [set_heartbeat()] is idempotent, and it touches only the eight
    attributes it assigns: every other attribute of the instance,
    [gm_spoof_host] and the host name among them, reads as before. *)
Theorem set_heartbeat_idempotent E (g : Gmetric.obj) :
  Gmetric.set_heartbeat E (snd (Gmetric.set_heartbeat E g))
  = Gmetric.set_heartbeat E g
  /\ forall name,
       ~ In name ["gv_name"; "gv_type"; "gv_value"; "gv_units"; "gv_slope";
                  "gv_tmax"; "gv_dmax"; "gm_spoof_heartbeat"]%string ->
       snd (Gmetric.set_heartbeat E g) !! name = g !! name.
Proof.
  rewrite !set_heartbeat_run. cbn [snd]. split.
  - f_equal. apply map_eq. intros i.
    rewrite !lookup_insert. repeat case_decide; done.
  - intros name Hname. cbn [In] in Hname.
    rewrite !lookup_insert_ne by (intros <-; tauto). done.
Qed.

Lemma set_heartbeat_idempotent_witness :
  snd (Gmetric.set_heartbeat Examples.E0 Examples.switch) !! "gm_spoof_host"
  = Examples.switch !! "gm_spoof_host".
Proof.
  apply (proj2 (set_heartbeat_idempotent Examples.E0 Examples.switch)).
  cbn [In]. intros H.
  repeat (destruct H as [H|H]; [discriminate H|]). exact H.
Defined.

(** ** Alignment of the records *)

Lemma pack_uint_length x buf buf' :
  xdrlib.pack_uint x buf = Ok buf' ->
  Z.of_nat (length buf') = Z.of_nat (length buf) + 4.
Proof.
  unfold xdrlib.pack_uint. destruct (xdrlib.index x) as [z|]; [|discriminate].
  destruct (_ && _); [|discriminate]. intros [= <-].
  rewrite length_app. cbn [xdrlib.be32 length]. lia.
Qed.

Lemma pack_int_length x buf buf' :
  xdrlib.pack_int x buf = Ok buf' ->
  Z.of_nat (length buf') = Z.of_nat (length buf) + 4.
Proof.
  unfold xdrlib.pack_int. destruct (xdrlib.index x) as [z|]; [|discriminate].
  destruct (_ && _); [|discriminate]. intros [= <-].
  rewrite length_app. cbn [xdrlib.be32 length]. lia.
Qed.

Lemma pack_bool_length x buf buf' :
  xdrlib.pack_bool x buf = Ok buf' ->
  Z.of_nat (length buf') = Z.of_nat (length buf) + 4.
Proof.
  unfold xdrlib.pack_bool. destruct (Py.truthy x); intros [= <-];
    rewrite length_app; cbn [length]; lia.
Qed.

Lemma pack_string_aligned b buf buf' :
  xdrlib.pack_string b buf = Ok buf' ->
  Z.of_nat (length buf) mod 4 = 0 ->
  Z.of_nat (length buf') mod 4 = 0.
Proof.
  unfold xdrlib.pack_string. intros H Hbuf.
  apply rbind_inv in H as (buf1 & H1 & H).
  apply pack_uint_length in H1.
  unfold xdrlib.pack_fstring in H.
  destruct (Z.ltb_spec (Z.of_nat (length b)) 0); [discriminate|].
  injection H as <-.
  rewrite !length_app, repeat_length, Nat2Z.id, firstn_all.
  rewrite !Nat2Z.inj_add, Z2Nat.id, H1.
  - replace (Z.of_nat (length buf) + 4
             + (Z.of_nat (length b)
                + ((Z.of_nat (length b) + 3) / 4 * 4 - Z.of_nat (length b))))
      with (Z.of_nat (length buf) + (1 + (Z.of_nat (length b) + 3) / 4) * 4)
      by lia.
    by rewrite Z_mod_plus_full.
  - rewrite padding_eq by lia. apply Z.mod_pos_bound. lia.
Qed.

Lemma aligned_step4 (buf buf' : bytes) :
  Z.of_nat (length buf') = Z.of_nat (length buf) + 4 ->
  Z.of_nat (length buf) mod 4 = 0 ->
  Z.of_nat (length buf') mod 4 = 0.
Proof.
  intros -> H. replace 4 with (1 * 4) at 1 by lia.
  by rewrite Z_mod_plus_full.
Qed.

Lemma pack_targethost_aligned (g : Gmetric.obj) buf buf' :
  Gmetric.pack_targethost g buf = Ok buf' ->
  Z.of_nat (length buf) mod 4 = 0 ->
  Z.of_nat (length buf') mod 4 = 0.
Proof.
  unfold Gmetric.pack_targethost. intros H Hbuf.
  apply rbind_inv in H as (h & _ & H). apply rbind_inv in H as (sh & _ & H).
  apply rbind_inv in H as (th & _ & H). apply rbind_inv in H as (b & _ & H).
  by apply pack_string_aligned in H.
Qed.

Lemma pack_name_aligned (g : Gmetric.obj) buf buf' :
  Gmetric.pack_name g buf = Ok buf' ->
  Z.of_nat (length buf) mod 4 = 0 ->
  Z.of_nat (length buf') mod 4 = 0.
Proof.
  unfold Gmetric.pack_name. intros H Hbuf.
  apply rbind_inv in H as (hb & _ & H). destruct (Py.truthy hb).
  - by apply pack_string_aligned in H.
  - apply rbind_inv in H as (n & _ & H). apply rbind_inv in H as (b & _ & H).
    by apply pack_string_aligned in H.
Qed.

Lemma pack_spoofed_aligned (g : Gmetric.obj) buf buf' :
  Gmetric.pack_spoofed g buf = Ok buf' ->
  Z.of_nat (length buf) mod 4 = 0 ->
  Z.of_nat (length buf') mod 4 = 0.
Proof.
  unfold Gmetric.pack_spoofed. intros H Hbuf.
  apply rbind_inv in H as (sh & _ & H). apply rbind_inv in H as (f & _ & H).
  apply pack_bool_length in H. by eapply aligned_step4.
Qed.

Lemma pack_if_set_aligned key attr (g : Gmetric.obj) buf buf' :
  Gmetric.pack_if_set key attr g buf = Ok buf' ->
  Z.of_nat (length buf) mod 4 = 0 ->
  Z.of_nat (length buf') mod 4 = 0.
Proof.
  unfold Gmetric.pack_if_set. intros H Hbuf.
  apply rbind_inv in H as (x & _ & H). destruct (Py.truthy x).
  - apply rbind_inv in H as (b1 & H1 & H).
    apply rbind_inv in H as (x' & _ & H). apply rbind_inv in H as (b & _ & H).
    apply pack_string_aligned in H1; [|done].
    by apply pack_string_aligned in H.
  - by injection H as <-.
Qed.

Lemma pack_group_items_aligned items buf buf' :
  Gmetric.pack_group_items items buf = Ok buf' ->
  Z.of_nat (length buf) mod 4 = 0 ->
  Z.of_nat (length buf') mod 4 = 0.
Proof.
  revert buf. induction items as [|x items IH]; intros buf H Hbuf.
  - by injection H as <-.
  - cbn [Gmetric.pack_group_items] in H.
    apply rbind_inv in H as (b1 & H1 & H). apply rbind_inv in H as (b & _ & H).
    apply rbind_inv in H as (b2 & H2 & H).
    apply pack_string_aligned in H1; [|done].
    apply pack_string_aligned in H2; [|done].
    by apply IH in H.
Qed.

Lemma pack_group_aligned (g : Gmetric.obj) buf buf' :
  Gmetric.pack_group g buf = Ok buf' ->
  Z.of_nat (length buf) mod 4 = 0 ->
  Z.of_nat (length buf') mod 4 = 0.
Proof.
  unfold Gmetric.pack_group. intros H Hbuf.
  apply rbind_inv in H as (x & _ & H). destruct (Py.truthy x).
  - apply rbind_inv in H as (x' & _ & H).
    apply rbind_inv in H as (items & _ & H).
    by apply pack_group_items_aligned in H.
  - by injection H as <-.
Qed.

Lemma __get_meta_value_buf___aligned (g : Gmetric.obj) buf buf' :
  Gmetric.__get_meta_value_buf__ g buf = Ok buf' ->
  Z.of_nat (length buf) mod 4 = 0 ->
  Z.of_nat (length buf') mod 4 = 0.
Proof.
  unfold Gmetric.__get_meta_value_buf__. intros H Hbuf.
  apply rbind_inv in H as (b1 & H1 & H).
  apply pack_name_aligned in H1; [|done].
  apply rbind_inv in H as (b2 & H2 & H).
  apply pack_spoofed_aligned in H2; [|done].
  apply rbind_inv in H as (ty & _ & H). apply rbind_inv in H as (tyv & _ & H).
  apply rbind_inv in H as (tb & _ & H). apply rbind_inv in H as (b3 & H3 & H).
  apply pack_string_aligned in H3; [|done].
  apply rbind_inv in H as (b4 & H4 & H).
  apply pack_name_aligned in H4; [|done].
  apply rbind_inv in H as (u & _ & H). apply rbind_inv in H as (ub & _ & H).
  apply rbind_inv in H as (b5 & H5 & H).
  apply pack_string_aligned in H5; [|done].
  apply rbind_inv in H as (sl & _ & H). apply rbind_inv in H as (slv & _ & H).
  apply rbind_inv in H as (b6 & H6 & H).
  apply pack_uint_length, aligned_step4 in H6; [|done].
  apply rbind_inv in H as (tm & _ & H). apply rbind_inv in H as (b7 & H7 & H).
  apply pack_uint_length, aligned_step4 in H7; [|done].
  apply rbind_inv in H as (dm & _ & H).
  by apply pack_uint_length, aligned_step4 in H.
Qed.

Lemma __get_meta_meta_buf___aligned (g : Gmetric.obj) buf buf' :
  Gmetric.__get_meta_meta_buf__ g buf = Ok buf' ->
  Z.of_nat (length buf) mod 4 = 0 ->
  Z.of_nat (length buf') mod 4 = 0.
Proof.
  unfold Gmetric.__get_meta_meta_buf__. intros H Hbuf.
  apply rbind_inv in H as (mlen & _ & H).
  apply rbind_inv in H as (b0 & H0 & H).
  apply pack_uint_length, aligned_step4 in H0; [|done].
  apply rbind_inv in H as (b1 & H1 & H).
  apply pack_if_set_aligned in H1; [|done].
  apply rbind_inv in H as (b2 & H2 & H).
  apply pack_if_set_aligned in H2; [|done].
  apply rbind_inv in H as (b3 & H3 & H).
  apply pack_if_set_aligned in H3; [|done].
  apply rbind_inv in H as (b4 & H4 & H).
  apply pack_group_aligned in H4; [|done].
  apply rbind_inv in H as (b5 & H5 & H).
  apply pack_if_set_aligned in H5; [|done].
  apply rbind_inv in H as (hb & _ & H). destruct (Py.truthy hb).
  - apply rbind_inv in H as (b6 & H6 & H).
    apply pack_string_aligned in H6; [|done].
    by apply pack_string_aligned in H.
  - by injection H as <-.
Qed.

(** X9.  Whatever the attributes of the instance hold, a buffer that
    [get_metabuf] or [get_valuebuf] returns is a whole number of
    four-octet XDR words. *)
Theorem buffers_aligned E (g : Gmetric.obj) buf :
  Gmetric.get_metabuf g = Ok buf \/ Gmetric.get_valuebuf E g = Ok buf ->
  Z.of_nat (length buf) mod 4 = 0.
Proof.
  intros [H|H].
  - unfold Gmetric.get_metabuf in H.
    apply rbind_inv in H as (b0 & H0 & H).
    apply pack_int_length, aligned_step4 in H0; [|done].
    apply rbind_inv in H as (b1 & H1 & H).
    apply rbind_inv in H as (b2 & H2 & H).
    apply rbind_inv in H as (b3 & H3 & H). injection H as <-.
    unfold xdrlib.get_buffer.
    eapply __get_meta_meta_buf___aligned; [exact H3|].
    eapply __get_meta_value_buf___aligned; [exact H2|].
    by eapply pack_targethost_aligned.
  - unfold Gmetric.get_valuebuf in H.
    apply rbind_inv in H as (b0 & H0 & H).
    apply pack_int_length, aligned_step4 in H0; [|done].
    apply rbind_inv in H as (b1 & H1 & H).
    apply pack_targethost_aligned in H1; [|done].
    apply rbind_inv in H as (b2 & H2 & H).
    apply pack_name_aligned in H2; [|done].
    apply rbind_inv in H as (b3 & H3 & H).
    apply pack_spoofed_aligned in H3; [|done].
    apply rbind_inv in H as (b4 & H4 & H).
    apply pack_string_aligned in H4; [|done].
    apply rbind_inv in H as (v & _ & H). apply rbind_inv in H as (b & _ & H).
    by apply pack_string_aligned in H.
Qed.

Lemma buffers_aligned_witness :
  Z.of_nat (length (Wire.metabuf (lit "box") Examples.voltage)) mod 4 = 0.
Proof.
  apply (buffers_aligned Examples.E0 Examples.gvol
           (Wire.metabuf (lit "box") Examples.voltage)).
  left. vm_compute. reflexivity.
Defined.

(** ** What each record depends on *)




(** ** The count of extra pairs, when it is right *)

(** X11.  When none of cluster, description, title and spoof host is the
    empty string, the count that [get_metabuf] writes after dmax is the
    number of key and value pairs that follow it. *)
Theorem count_is_number_of_pairs host (g : Gmetric.obj) d buf :
  represents host g d ->
  d_cluster d <> Some [] -> d_desc d <> Some [] -> d_title d <> Some [] ->
  d_spoof_host d <> Some [] ->
  Gmetric.get_metabuf g = Ok buf ->
  buf = Wire.xdr_int 128
        ++ Wire.xdr_string (Wire.utf8_bytes (Wire.origin host d))
        ++ Wire.xdr_string (Wire.utf8_bytes (Wire.wire_name d))
        ++ Wire.xdr_bool (Wire.spoofed d)
        ++ Wire.xdr_string (Wire.utf8_bytes (TypeEnum_value (d_type d)))
        ++ Wire.xdr_string (Wire.utf8_bytes (Wire.wire_name d))
        ++ Wire.xdr_string (Wire.utf8_bytes (d_units d))
        ++ Wire.xdr_uint (SlopeEnum_value (d_slope d))
        ++ Wire.xdr_uint (d_tmax d)
        ++ Wire.xdr_uint (d_dmax d)
        ++ Wire.xdr_uint (Z.of_nat (length (Wire.extra_pairs d)))
        ++ Wire.xdr_pairs (Wire.extra_pairs d).
Proof.
  intros Hrep Hc Hd Ht Hs Hbuf.
  pose proof (get_metabuf_fits _ _ _ _ Hrep Hbuf) as Hfit.
  rewrite (get_metabuf_spec _ _ _ Hrep Hfit) in Hbuf. injection Hbuf as <-.
  unfold Wire.metabuf. by rewrite (extra_count_pairs d Hc Hd Ht Hs).
Qed.

Lemma count_is_number_of_pairs_witness :
  Wire.metabuf (lit "box") Examples.voltage
  = Wire.xdr_int 128
    ++ Wire.xdr_string (lit "192.168.0.1:myswitch")
    ++ Wire.xdr_string (lit "voltage")
    ++ Wire.xdr_bool true
    ++ Wire.xdr_string (lit "int16")
    ++ Wire.xdr_string (lit "voltage")
    ++ Wire.xdr_string (lit "Voltage")
    ++ Wire.xdr_uint 3
    ++ Wire.xdr_uint 30
    ++ Wire.xdr_uint 120
    ++ Wire.xdr_uint (Z.of_nat (length (Wire.extra_pairs Examples.voltage)))
    ++ Wire.xdr_pairs (Wire.extra_pairs Examples.voltage).
Proof.
  apply (count_is_number_of_pairs (lit "box") Examples.gvol Examples.voltage).
  - split; [split|..]; try (vm_compute; reflexivity).
    left. vm_compute. reflexivity.
  - discriminate.
  - discriminate.
  - discriminate.
  - discriminate.
  - vm_compute. reflexivity.
Defined.

(** ** The socket of a sender *)

Lemma syscall_outcome ev w :
  Sender.syscall ev w
  = (Ok tt, {| Sender.trace := Sender.trace w ++ [ev];
               Sender.faults := tail (Sender.faults w) |})
  \/ Sender.syscall ev w
     = (Raise OSError, {| Sender.trace := Sender.trace w;
                          Sender.faults := tail (Sender.faults w) |}).
Proof.
  unfold Sender.syscall. destruct (Sender.faults w) as [|[] rest]; auto.
Qed.

Lemma syscall_quiet ev w :
  Sender.faults w = [] ->
  Sender.syscall ev w
  = (Ok tt, {| Sender.trace := Sender.trace w ++ [ev];
               Sender.faults := [] |}).
Proof. unfold Sender.syscall. by intros ->. Qed.

(** The test that [setsockopt] makes on the TTL. *)
Lemma fits_int_spec ttl :
  (ttl <? - 2 ^ 31) || (2 ^ 31 <=? ttl) = false <-> - 2 ^ 31 <= ttl < 2 ^ 31.
Proof. rewrite orb_false_iff, Z.ltb_ge, Z.leb_gt. reflexivity. Qed.

(** X12.  [create_socket] has four outcomes.  It returns after creating
    a socket, recording it in the sender and, exactly when the
    destination is a multicast address, setting the multicast TTL to the
    configured value, which then fits a C [int].  Or creating the socket
    fails and nothing changes.  Or the destination is multicast and the
    TTL is not set: the system refuses the call ([OSError]), or the TTL
    does not fit a C [int] ([TypeError], raised before the system is
    called); in both cases the socket has been created and stays
    recorded in the sender. *)
Theorem create_socket_outcome self w r self' w' :
  Sender.create_socket (self, w) = (r, (self', w')) ->
  let fd := length (Sender.trace w) in
  (r = Ok tt
   /\ (Sender.is_multicast (fst (Sender.dstaddr self)) = true ->
       - 2 ^ 31 <= Sender.ttl self < 2 ^ 31)
   /\ self' = Sender.set_mysocket (Some fd) self
   /\ Sender.trace w'
      = Sender.trace w
        ++ Sender.Socket fd
           :: (if Sender.is_multicast (fst (Sender.dstaddr self))
               then [Sender.Setsockopt fd (Sender.ttl self)] else []))
  \/ (r = Raise OSError /\ self' = self /\ Sender.trace w' = Sender.trace w)
  \/ (r = Raise OSError
      /\ Sender.is_multicast (fst (Sender.dstaddr self)) = true
      /\ - 2 ^ 31 <= Sender.ttl self < 2 ^ 31
      /\ self' = Sender.set_mysocket (Some fd) self
      /\ Sender.trace w' = Sender.trace w ++ [Sender.Socket fd])
  \/ (r = Raise TypeError
      /\ Sender.is_multicast (fst (Sender.dstaddr self)) = true
      /\ ~ (- 2 ^ 31 <= Sender.ttl self < 2 ^ 31)
      /\ self' = Sender.set_mysocket (Some fd) self
      /\ Sender.trace w' = Sender.trace w ++ [Sender.Socket fd]).
Proof.
  unfold Sender.create_socket, mbind, Sender.os, mget, Sender.self_set,
    Sender.self_get, mret.
  destruct (syscall_outcome (Sender.Socket (length (Sender.trace w))) w)
    as [-> | ->]; cbv beta iota zeta.
  - cbn [Sender.set_mysocket Sender.dstaddr Sender.ttl].
    destruct (Sender.is_multicast _).
    + unfold Sender.setsockopt, Sender.os, mraise.
      destruct (_ || _) eqn:Hfits.
      * intros [= <- <- <-]. cbn [Sender.trace]. do 3 right.
        repeat (split; [done|]). split; [|done].
        intros H. apply fits_int_spec in H. congruence.
      * apply fits_int_spec in Hfits.
        match goal with
        | |- context [Sender.syscall ?ev ?w1] =>
            destruct (syscall_outcome ev w1) as [-> | ->]
        end; cbv beta iota zeta; intros [= <- <- <-]; cbn [Sender.trace].
        -- left. by rewrite <- app_assoc.
        -- right. right. left. done.
    + intros [= <- <- <-]. left. done.
  - intros [= <- <- <-]. right. left. done.
Qed.

Lemma create_socket_outcome_witness :
  Sender.trace
    {| Sender.trace := [Sender.Socket 0; Sender.Setsockopt 0 4];
       Sender.faults := [] |}
  = Sender.trace Examples.world0
    ++ Sender.Socket 0
       :: (if Sender.is_multicast (fst (Sender.dstaddr Cases.mcast))
           then [Sender.Setsockopt 0 (Sender.ttl Cases.mcast)] else []).
Proof.
  destruct (create_socket_outcome Cases.mcast Examples.world0 (Ok tt)
              (Sender.set_mysocket (Some 0%nat) Cases.mcast)
              {| Sender.trace := [Sender.Socket 0; Sender.Setsockopt 0 4];
                 Sender.faults := [] |})
    as [(_ & _ & _ & Htrace)|[(Hr & _)|[(Hr & _)|(Hr & _)]]].
  - vm_compute. reflexivity.
  - exact Htrace.
  - discriminate Hr.
  - discriminate Hr.
  - discriminate Hr.
Defined.

Lemma sendto_quiet buf self w fd :
  Sender.mysocket self = Some fd ->
  Sender.faults w = [] ->
  Sender.sendto buf (self, w)
  = (Ok tt, (self, {| Sender.trace :=
                        Sender.trace w
                        ++ [Sender.Sendto fd buf (Sender.dstaddr self)];
                      Sender.faults := [] |})).
Proof.
  intros Hs Hf. unfold Sender.sendto, mbind, Sender.self_get, Sender.os.
  cbv beta iota zeta. rewrite Hs. by rewrite (syscall_quiet _ _ Hf).
Qed.

Lemma create_socket_quiet self w :
  Sender.faults w = [] ->
  (Sender.is_multicast (fst (Sender.dstaddr self)) = true ->
   - 2 ^ 31 <= Sender.ttl self < 2 ^ 31) ->
  Sender.create_socket (self, w)
  = (Ok tt,
     (Sender.set_mysocket (Some (length (Sender.trace w))) self,
      {| Sender.trace :=
           Sender.trace w
           ++ Sender.Socket (length (Sender.trace w))
              :: (if Sender.is_multicast (fst (Sender.dstaddr self))
                  then [Sender.Setsockopt (length (Sender.trace w))
                          (Sender.ttl self)]
                  else []);
         Sender.faults := [] |})).
Proof.
  intros Hf Httl.
  unfold Sender.create_socket, mbind, Sender.os, mget, Sender.self_set,
    Sender.self_get, mret.
  rewrite (syscall_quiet _ _ Hf). cbv beta iota zeta.
  cbn [Sender.set_mysocket Sender.dstaddr Sender.ttl].
  destruct (Sender.is_multicast _); [|done].
  unfold Sender.setsockopt, Sender.os.
  rewrite (proj2 (fits_int_spec _) (Httl eq_refl)).
  rewrite syscall_quiet by done. cbn [Sender.trace].
  by rewrite <- app_assoc.
Qed.

(** X13.  When the system refuses none of the calls, [send] of a metric
    that passes the spoof check and has both its buffers returns
    normally, provided that a TTL which has to be set (no socket yet, a
    multicast destination) fits a C [int].  With a socket already open
    it does nothing but send the two datagrams on it; with none it first
    creates one (and sets the TTL for a multicast destination), records
    it in the sender, and sends on it: the socket is opened at the first
    [send] and used again by the next ones. *)
Theorem send_on_quiet_network E (g : Gmetric.obj) hb sh mbuf vbuf self w :
  g !! "gm_spoof_heartbeat" = Some hb ->
  g !! "gm_spoof_host" = Some sh ->
  (Py.truthy hb = true -> Py.truthy sh = true) ->
  Gmetric.get_metabuf g = Ok mbuf ->
  Gmetric.get_valuebuf E g = Ok vbuf ->
  Sender.faults w = [] ->
  (Sender.mysocket self = None ->
   Sender.is_multicast (fst (Sender.dstaddr self)) = true ->
   - 2 ^ 31 <= Sender.ttl self < 2 ^ 31) ->
  Sender.send E (Sender.Instance g) (self, w)
  = match Sender.mysocket self with
    | Some fd =>
        (Ok tt,
         (self,
          {| Sender.trace :=
               Sender.trace w
               ++ [Sender.Sendto fd mbuf (Sender.dstaddr self);
                   Sender.Sendto fd vbuf (Sender.dstaddr self)];
             Sender.faults := [] |}))
    | None =>
        let fd := length (Sender.trace w) in
        (Ok tt,
         (Sender.set_mysocket (Some fd) self,
          {| Sender.trace :=
               Sender.trace w
               ++ Sender.Socket fd
                  :: (if Sender.is_multicast (fst (Sender.dstaddr self))
                      then [Sender.Setsockopt fd (Sender.ttl self)] else [])
               ++ [Sender.Sendto fd mbuf (Sender.dstaddr self);
                   Sender.Sendto fd vbuf (Sender.dstaddr self)];
             Sender.faults := [] |}))
    end.
Proof.
  intros Hhb Hsh Hcheck Hm Hv Hf Httl. unfold Sender.send.
  erewrite mbind_ok
    by (unfold mlift, Gmetric.getattr; rewrite Hhb; reflexivity).
  assert (Hc : exists c, Py.and_ hb
                 (sh0 <- Gmetric.getattr "gm_spoof_host" g ;
                  Ok (VBool (negb (Py.truthy sh0))))%result = Ok c
               /\ Py.truthy c = false).
  { unfold Py.and_, Gmetric.getattr. rewrite Hsh. cbn [rbind].
    destruct (Py.truthy hb) eqn:Hb; [|eauto].
    rewrite (Hcheck eq_refl). eauto. }
  destruct Hc as (c & Hc & Hfalse).
  erewrite mbind_ok by (unfold mlift; rewrite Hc; reflexivity).
  rewrite Hfalse.
  erewrite mbind_ok by (unfold mlift; rewrite Hm; reflexivity).
  erewrite mbind_ok by (unfold mlift; rewrite Hv; reflexivity).
  erewrite mbind_ok by reflexivity.
  destruct (Sender.mysocket self) as [fd|] eqn:Hs.
  - cbn [negb bool_decide].
    erewrite mbind_ok by reflexivity.
    erewrite mbind_ok by (by apply sendto_quiet).
    erewrite sendto_quiet by done. cbn [Sender.trace].
    by rewrite <- app_assoc.
  - cbn [negb bool_decide].
    erewrite mbind_ok by (apply create_socket_quiet; auto).
    erewrite mbind_ok by (by apply sendto_quiet).
    erewrite sendto_quiet by done. cbn [Sender.trace Sender.set_mysocket
                                        Sender.dstaddr].
    cbv zeta. by rewrite <- !app_assoc.
Qed.

Lemma send_on_quiet_network_witness :
  Sender.send Examples.E0 (Sender.Instance Examples.gtemp)
    (Cases.mcast, Examples.world0)
  = (Ok tt,
     (Sender.set_mysocket (Some 0%nat) Cases.mcast,
      {| Sender.trace :=
           [Sender.Socket 0;
            Sender.Setsockopt 0 4;
            Sender.Sendto 0 (Wire.metabuf (lit "box") Examples.temperature)
              (0xEF020B47, 8649);
            Sender.Sendto 0 (Wire.valuebuf (lit "box") Examples.temperature)
              (0xEF020B47, 8649)];
         Sender.faults := [] |})).
Proof.
  apply (send_on_quiet_network Examples.E0 Examples.gtemp (VBool false) VNone
           (Wire.metabuf (lit "box") Examples.temperature)
           (Wire.valuebuf (lit "box") Examples.temperature)
           Cases.mcast Examples.world0).
  - vm_compute. reflexivity.
  - vm_compute. reflexivity.
  - discriminate.
  - vm_compute. reflexivity.
  - vm_compute. reflexivity.
  - reflexivity.
  - intros _ _. simpl. lia.
Defined.

(** ** A send that fails *)

Lemma mbind_raise_inv {S A B} (c : M S A) (k : A -> M S B) s e s' :
  mbind c k s = (Raise e, s') ->
  c s = (Raise e, s')
  \/ exists a s1, c s = (Ok a, s1) /\ k a s1 = (Raise e, s').
Proof.
  unfold mbind. destruct (c s) as [[a|e0] s1]; [eauto|].
  intros [= <- <-]. by left.
Qed.

Lemma mlift_raise_inv {S A} (r : result A) (s s' : S) e :
  mlift r s = (Raise e, s') -> s' = s.
Proof. unfold mlift. by intros [= _ <-]. Qed.

Lemma sendto_raise buf self w e self' w' :
  Sender.sendto buf (self, w) = (Raise e, (self', w')) ->
  self' = self
  /\ Sender.datagrams w' = Sender.datagrams w
  /\ (e = OSError \/ (Sender.mysocket self = None /\ w' = w)).
Proof.
  unfold Sender.sendto, mbind, Sender.self_get, Sender.os, mraise.
  cbv beta iota zeta.
  destruct (Sender.mysocket self) as [fd|].
  - match goal with
    | |- context [Sender.syscall ?ev ?w1] =>
        destruct (syscall_outcome ev w1) as [-> | ->]
    end; [discriminate|].
    intros [= <- <- <-]. auto.
  - intros [= <- <- <-]. auto.
Qed.

(** A [create_socket] that raises has sent nothing; what it raises is
    the socket error, or the [TypeError] of a TTL that does not fit. *)
Lemma create_socket_raise self w e self' w' :
  Sender.create_socket (self, w) = (Raise e, (self', w')) ->
  Sender.datagrams w' = Sender.datagrams w
  /\ (e = OSError
      \/ (e = TypeError
          /\ Sender.is_multicast (fst (Sender.dstaddr self)) = true
          /\ ~ (- 2 ^ 31 <= Sender.ttl self < 2 ^ 31)
          /\ self' = Sender.set_mysocket
                       (Some (length (Sender.trace w))) self
          /\ Sender.trace w'
             = Sender.trace w ++ [Sender.Socket (length (Sender.trace w))])).
Proof.
  unfold Sender.create_socket, mbind, Sender.os, mget, Sender.self_set,
    Sender.self_get, mret.
  destruct (syscall_outcome (Sender.Socket (length (Sender.trace w))) w)
    as [-> | ->]; cbv beta iota zeta.
  - cbn [Sender.set_mysocket Sender.dstaddr Sender.ttl].
    destruct (Sender.is_multicast _); [|discriminate].
    unfold Sender.setsockopt, Sender.os, mraise.
    destruct (_ || _) eqn:Hfits.
    + intros [= <- <- <-]. split.
      * unfold Sender.datagrams. cbn [Sender.trace]. rewrite omap_app.
        cbn. by rewrite app_nil_r.
      * right. cbn [Sender.trace]. repeat (split; [done|]).
        split; [|done]. intros H. apply fits_int_spec in H. congruence.
    + match goal with
      | |- context [Sender.syscall ?ev ?w1] =>
          destruct (syscall_outcome ev w1) as [-> | ->]
      end; cbv beta iota zeta; [discriminate|].
      intros [= <- <- <-]. split; [|by left].
      unfold Sender.datagrams. cbn [Sender.trace]. rewrite omap_app.
      cbn. by rewrite app_nil_r.
  - intros [= <- <- <-]. split; [done|by left].
Qed.

(** X14.  A [send] that raises anything but a socket error has touched
    neither the sender nor the network: the argument is checked and both
    buffers are built before the first call to the socket.  The one
    exception is the [TypeError] of a multicast TTL that does not fit a
    C [int], raised while the socket is being set up: the new socket
    stays recorded in the sender, and nothing has been sent.  When the
    socket layer fails, at most the metadata datagram has left, never
    the value datagram alone and never anything else. *)
Theorem send_failure E metric self w e self' w' :
  Sender.send E metric (self, w) = (Raise e, (self', w')) ->
  (e <> OSError ->
   (self' = self /\ w' = w)
   \/ (e = TypeError
       /\ Sender.mysocket self = None
       /\ Sender.is_multicast (fst (Sender.dstaddr self)) = true
       /\ ~ (- 2 ^ 31 <= Sender.ttl self < 2 ^ 31)
       /\ self' = Sender.set_mysocket (Some (length (Sender.trace w))) self
       /\ Sender.trace w'
          = Sender.trace w ++ [Sender.Socket (length (Sender.trace w))]))
  /\ (Sender.datagrams w' = Sender.datagrams w
      \/ exists g mbuf,
           metric = Sender.Instance g
           /\ Gmetric.get_metabuf g = Ok mbuf
           /\ Sender.datagrams w'
              = Sender.datagrams w ++ [(mbuf, Sender.dstaddr self)]).
Proof.
  destruct metric as [g|v]; [|intros [= <- <- <-]; auto].
  intros H. unfold Sender.send in H.
  apply mbind_raise_inv in H as [H|(hb & st & H1 & H)];
    [apply mlift_raise_inv in H as [= <- <-]; auto|].
  apply mlift_inv in H1 as [_ ->].
  apply mbind_raise_inv in H as [H|(c & st & H1 & H)];
    [apply mlift_raise_inv in H as [= <- <-]; auto|].
  apply mlift_inv in H1 as [_ ->].
  destruct (Py.truthy c); [injection H as <- <- <-; auto|].
  apply mbind_raise_inv in H as [H|(mbuf & st & Hm & H)];
    [apply mlift_raise_inv in H as [= <- <-]; auto|].
  apply mlift_inv in Hm as [Hm ->].
  apply mbind_raise_inv in H as [H|(vbuf & st & Hv & H)];
    [apply mlift_raise_inv in H as [= <- <-]; auto|].
  apply mlift_inv in Hv as [Hv ->].
  apply mbind_raise_inv in H as [H|(self0 & st & H0 & H)]; [discriminate H|].
  injection H0 as <- <-.
  assert (Hsent : forall self1 w1,
             Sender.dstaddr self1 = Sender.dstaddr self ->
             Sender.datagrams w1 = Sender.datagrams w ->
             is_Some (Sender.mysocket self1) ->
             mbind (Sender.sendto mbuf)
               (fun _ => Sender.sendto vbuf) (self1, w1)
             = (Raise e, (self', w')) ->
             e = OSError
             /\ (Sender.datagrams w' = Sender.datagrams w
                 \/ Sender.datagrams w'
                    = Sender.datagrams w ++ [(mbuf, Sender.dstaddr self)])).
  { intros self1 w1 Ha Hd [fd Hfd] Hrun.
    apply mbind_raise_inv in Hrun as [Hrun|([] & [self2 w2] & Hs1 & Hrun)].
    - apply sendto_raise in Hrun as (_ & Hd' & [->|[Hnone _]]);
        [|congruence]. split; [done|]. left. congruence.
    - apply sendto_ok in Hs1 as [-> Hd1].
      apply sendto_raise in Hrun as (_ & Hd' & [->|[Hnone _]]);
        [|congruence]. split; [done|]. right. congruence. }
  apply mbind_raise_inv in H as [H|([] & [self1 w1] & Hopen & H)].
  - destruct (negb _) eqn:Hsock; [|discriminate H].
    apply negb_true_iff, bool_decide_eq_false in Hsock.
    assert (Hnone : Sender.mysocket self = None).
    { destruct (Sender.mysocket self); [|done]. destruct Hsock. eauto. }
    apply create_socket_raise in H as [Hd [->|(-> & Hm' & Hfit & -> & Ht)]].
    + split; [done|by left].
    + split; [|by left]. intros _. right. done.
  - destruct (negb _) eqn:Hsock.
    + apply create_socket_ok in Hopen as (Hd & Ha & Hsome).
      destruct (Hsent self1 w1 Ha Hd Hsome H) as [-> Hcases].
      split; [done|]. destruct Hcases; [by left|right; eauto].
    + injection Hopen as <- <-.
      apply negb_false_iff, bool_decide_eq_true in Hsock.
      destruct (Hsent self w eq_refl eq_refl Hsock H) as [-> Hcases].
      split; [done|]. destruct Hcases; [by left|right; eauto].
Qed.

(** Three failures: an encoder error that leaves everything as it was, a
    TTL that does not fit, and a socket error after the first
    datagram. *)
Lemma send_failure_witness :
  (fst (snd (Sender.send Examples.E0 (Sender.Instance Examples.long_tmax)
               (Examples.sender0, Examples.world0)))
   = Examples.sender0
   /\ snd (snd (Sender.send Examples.E0 (Sender.Instance Examples.long_tmax)
                  (Examples.sender0, Examples.world0)))
      = Examples.world0)
  /\ Sender.trace (snd (snd (Sender.send Examples.E0
                               (Sender.Instance Examples.gtemp)
                               (Cases.wide, Examples.world0))))
     = [Sender.Socket 0]
  /\ (Sender.datagrams (snd (snd Cases.half_sent))
      = Sender.datagrams Cases.flaky
      \/ exists g mbuf,
           Sender.Instance Examples.gtemp = Sender.Instance g
           /\ Gmetric.get_metabuf g = Ok mbuf
           /\ Sender.datagrams (snd (snd Cases.half_sent))
              = Sender.datagrams Cases.flaky
                ++ [(mbuf, Sender.dstaddr Examples.sender0)]).
Proof.
  split; [|split].
  - destruct (send_failure Examples.E0 (Sender.Instance Examples.long_tmax)
                Examples.sender0 Examples.world0 ConversionError
                (fst (snd (Sender.send Examples.E0
                             (Sender.Instance Examples.long_tmax)
                             (Examples.sender0, Examples.world0))))
                (snd (snd (Sender.send Examples.E0
                             (Sender.Instance Examples.long_tmax)
                             (Examples.sender0, Examples.world0)))))
      as [Hkept _].
    + vm_compute. reflexivity.
    + destruct (Hkept ltac:(discriminate)) as [Hsame|(He & _)];
        [exact Hsame|discriminate He].
  - destruct (send_failure Examples.E0 (Sender.Instance Examples.gtemp)
                Cases.wide Examples.world0 TypeError
                (fst (snd (Sender.send Examples.E0
                             (Sender.Instance Examples.gtemp)
                             (Cases.wide, Examples.world0))))
                (snd (snd (Sender.send Examples.E0
                             (Sender.Instance Examples.gtemp)
                             (Cases.wide, Examples.world0)))))
      as [Hkept _].
    + vm_compute. reflexivity.
    + destruct (Hkept ltac:(discriminate))
        as [[_ Hsame]|(_ & _ & _ & _ & _ & Htrace)]; [|exact Htrace].
      exfalso. revert Hsame. vm_compute. discriminate.
  - apply (send_failure Examples.E0 (Sender.Instance Examples.gtemp)
             Examples.sender0 Cases.flaky OSError
             (fst (snd Cases.half_sent)) (snd (snd Cases.half_sent))).
    vm_compute. reflexivity.
Defined.

(** ** Closing *)

(** On an instance whose constructor returned, the finalizer's
    [close_socket] is the method. *)
Lemma close_socket_on_Built self w :
  Sender.close_socket_on (Sender.Built self, w)
  = let '(r, (self', w')) := Sender.close_socket (self, w) in
    (r, (Sender.Built self', w')).
Proof.
  unfold Sender.close_socket_on, Sender.close_socket, mfinally, mbind,
    Sender.self_get, Sender.os, Sender.self_set, mret.
  cbn [Sender.read_mysocket Sender.clear_mysocket].
  destruct (Sender.mysocket self) as [fd|]; [|reflexivity].
  by destruct (Sender.syscall (Sender.Close fd) w) as [[[]|e] w1].
Qed.

(** X15.  On a sender whose constructor returned, [close_socket] always
    leaves the sender without a socket and with its destination and TTL
    unchanged, even when closing fails: the only exception it can raise
    is the socket error of [close()], and it never sends a datagram.  On
    a sender that has no socket (never opened, or already closed) it
    returns normally and does nothing at all, so closing twice is
    harmless; [__del__] does the same and does not raise.  On the
    instance that a refused constructor leaves behind (a port outside 1
    to 65535, a host that does not resolve), which has no attribute at
    all, [close_socket] raises [AttributeError] after storing [None]
    under [__mysocket], and [__del__], which catches the socket error
    only, lets it through. *)
Theorem close_socket_outcome E dsthost dstport ttl self w :
  (exists r w',
      Sender.close_socket (self, w)
      = (r, (Sender.set_mysocket None self, w'))
      /\ (r = Ok tt \/ r = Raise OSError)
      /\ Sender.datagrams w' = Sender.datagrams w
      /\ (Sender.mysocket self = None -> r = Ok tt /\ w' = w)
      /\ Sender.close_socket (Sender.set_mysocket None self, w')
         = (Ok tt, (Sender.set_mysocket None self, w'))
      /\ Sender.__del__ (Sender.Built self, w)
         = (Ok tt, (Sender.Built (Sender.set_mysocket None self), w')))
  /\ (fst (Sender.__init__ E dsthost dstport ttl w) = Ok self ->
      Sender.allocated E dsthost dstport ttl w = Sender.Built self
      /\ Sender.__del__ (Sender.allocated E dsthost dstport ttl w, w)
         = (Ok tt, (Sender.Built self, w)))
  /\ ((dstport <= 0 \/ 65536 <= dstport \/ gethostbyname E dsthost = None) ->
      Sender.allocated E dsthost dstport ttl w = Sender.Unbuilt
      /\ Sender.close_socket_on (Sender.Unbuilt, w)
         = (Raise AttributeError, (Sender.Socketless, w))
      /\ Sender.__del__ (Sender.allocated E dsthost dstport ttl w, w)
         = (Raise AttributeError, (Sender.Socketless, w))).
Proof.
  assert (Hclose : exists r w',
      Sender.close_socket (self, w)
      = (r, (Sender.set_mysocket None self, w'))
      /\ (r = Ok tt \/ r = Raise OSError)
      /\ Sender.datagrams w' = Sender.datagrams w
      /\ (Sender.mysocket self = None -> r = Ok tt /\ w' = w)).
  { unfold Sender.close_socket, mfinally, mbind, Sender.self_get, Sender.os,
      Sender.self_set, mret.
    cbv beta iota zeta. destruct (Sender.mysocket self) as [fd|].
    - destruct (syscall_outcome (Sender.Close fd) w) as [-> | ->];
        cbv beta iota zeta; eexists _, _; (split; [reflexivity|]);
        (split; [auto|]); (split; [|done]).
      + unfold Sender.datagrams. cbn [Sender.trace]. rewrite omap_app.
        cbn. by rewrite app_nil_r.
      + done.
    - eexists _, _. split; [reflexivity|]. auto. }
  destruct Hclose as (r & w' & Hrun & Hr & Hd & Hnone).
  split; [|split].
  - exists r, w'. do 4 (split; [done|]). split.
    + unfold Sender.close_socket, mfinally, mbind, Sender.self_get,
        Sender.os, Sender.self_set, mret. reflexivity.
    + unfold Sender.__del__, Sender.except_socket_error.
      rewrite close_socket_on_Built, Hrun.
      by destruct Hr as [-> | ->].
  - intros Hinit. unfold Sender.allocated. rewrite Hinit.
    split; [done|].
    assert (Hs : Sender.mysocket self = None).
    { revert Hinit. unfold Sender.__init__, mraise, mret.
      destruct (_ || _); [discriminate|].
      destruct (gethostbyname E dsthost); [|discriminate].
      by intros [= <-]. }
    destruct (Hnone Hs) as [-> ->].
    unfold Sender.__del__, Sender.except_socket_error.
    rewrite close_socket_on_Built, Hrun.
    destruct self as [a t s]. cbn in Hs. by subst s.
  - intros Hbad.
    assert (Hinit : exists e,
               fst (Sender.__init__ E dsthost dstport ttl w) = Raise e).
    { unfold Sender.__init__, mraise, mret.
      destruct (_ || _) eqn:Hport; [eauto|].
      apply orb_false_iff in Hport as [H1 H2].
      apply Z.leb_gt in H1. rewrite Z.geb_leb in H2. apply Z.leb_gt in H2.
      destruct Hbad as [?|[?|Hhost]]; [lia|lia|].
      rewrite Hhost. eauto. }
    destruct Hinit as [e Hinit].
    unfold Sender.allocated. rewrite Hinit. done.
Qed.

Lemma close_socket_outcome_witness :
  Sender.__del__ (Sender.allocated Examples.E0 (lit "localhost") 0 1
                    Examples.world0, Examples.world0)
  = (Raise AttributeError, (Sender.Socketless, Examples.world0)).
Proof.
  destruct (close_socket_outcome Examples.E0 (lit "localhost") 0 1
              Examples.sender0 Examples.world0) as (_ & _ & Hbad).
  apply Hbad. left. lia.
Defined.
